(** * chezious-backend: the streaming chat pipeline and its persistence services

    A shallow embedding of the Python sources
      app/core/exceptions.py, app/core/logging.py, app/core/config.py,
      app/db/engine.py, app/services/user_service.py,
      app/services/session_service.py, app/schemas/user.py,
      app/api/v1/chat.py, app/api/v1/users.py, app/api/v1/health.py,
      app/utils/streaming.py, app/llm/prompts.py and app/main.py
    together with the properties stated about them.

    Conventions.
    - Python [str] is [string]; [Optional[str]] is [option string];
      Python [int] is [Z]; a UUID is its 128-bit integer value, an [N].
    - A table with a primary key is a finite map from the key to the row
      ([gmap]); the turns of all sessions are a list in insertion
      (chronological) order.
    - Code that talks to the SQLAlchemy session lives in a state-and-exception
      monad over the store: a raised exception carries the store as it was when
      the exception left the function. *)

From Stdlib Require Import ZArith List Ascii String Sorted.
From stdpp Require Import base option list strings gmap fin_maps sorting pretty.

Open Scope string_scope.
Open Scope list_scope.

(** ** Python values the services pass around *)

(** Truth value of an [Optional[str]]: [None] and the empty string are falsy. *)
Definition truthy (o : option string) : bool :=
  match o with
  | Some s => negb (String.eqb s "")
  | None => false
  end.

(** [a or b] on [Optional[str]] operands. *)
Definition py_or (a b : option string) : option string :=
  if truthy a then a else b.

(** [l.sort(key=key, reverse=True)] and [sorted(.., reverse=True)]: largest
    key first, and stable, so entries with equal keys keep their order.
    Insertion puts [x] in front of the first entry whose key is not larger. *)
Fixpoint insert_desc {A} (key : A → Z) (x : A) (l : list A) : list A :=
  match l with
  | [] => [x]
  | y :: l' =>
      if (key y <=? key x)%Z then x :: y :: l'
      else y :: insert_desc key x l'
  end.

Fixpoint sort_desc {A} (key : A → Z) (l : list A) : list A :=
  match l with
  | [] => []
  | x :: l' => insert_desc key x (sort_desc key l')
  end.

(** A [dict] with string keys and values, in insertion order.  [d[k] = v]
    overwrites in place or appends; [d.get(k)]; [d.update(e)]. *)
Fixpoint dict_set (k v : string) (d : list (string * string))
    : list (string * string) :=
  match d with
  | [] => [(k, v)]
  | (k', v') :: d' =>
      if String.eqb k' k then (k, v) :: d' else (k', v') :: dict_set k v d'
  end.

Fixpoint dict_get (k : string) (d : list (string * string)) : option string :=
  match d with
  | [] => None
  | (k', v') :: d' => if String.eqb k' k then Some v' else dict_get k d'
  end.

Definition dict_update (d e : list (string * string)) : list (string * string) :=
  fold_left (λ acc kv, dict_set kv.1 kv.2 acc) e d.

(** ** app/core/exceptions.py *)

Module Exceptions.

(** The attributes [ChatBotException.__init__] stores. *)
Record ChatBotException := {
  message : string;
  code : string;
  status_code : Z;
  details : list (string * string)
}.

Definition SessionNotFoundException (session_id : string) : ChatBotException :=
  {| message := "Session with ID '" +:+ session_id +:+ "' not found";
     code := "SESSION_NOT_FOUND";
     status_code := 404;
     details := [("session_id", session_id)] |}.

Definition UserNotFoundException (user_id : string) : ChatBotException :=
  {| message := "User with ID '" +:+ user_id +:+ "' not found";
     code := "USER_NOT_FOUND";
     status_code := 404;
     details := [("user_id", user_id)] |}.

Definition UserAlreadyExistsException (user_id : string) : ChatBotException :=
  {| message := "User with ID '" +:+ user_id +:+ "' already exists";
     code := "USER_ALREADY_EXISTS";
     status_code := 409;
     details := [("user_id", user_id)] |}.

(** [details or {}] *)
Definition details_or_empty (d : option (list (string * string)))
    : list (string * string) :=
  default [] d.

Definition ValidationException (msg : string)
    (d : option (list (string * string))) : ChatBotException :=
  {| message := msg; code := "VALIDATION_ERROR"; status_code := 400;
     details := details_or_empty d |}.

Definition GroqAPIException (msg : string)
    (d : option (list (string * string))) : ChatBotException :=
  {| message := msg; code := "GROQ_API_ERROR"; status_code := 502;
     details := details_or_empty d |}.

Definition DatabaseException (msg : string)
    (d : option (list (string * string))) : ChatBotException :=
  {| message := msg; code := "DATABASE_ERROR"; status_code := 500;
     details := details_or_empty d |}.

(** [details={"user_id": user_id} if user_id else {}] *)
Definition RateLimitException (user_id : option string) : ChatBotException :=
  {| message := "Rate limit exceeded. Please try again later.";
     code := "RATE_LIMIT_EXCEEDED"; status_code := 429;
     details := match user_id with
                | Some u => if truthy user_id then [("user_id", u)] else []
                | None => []
                end |}.

Definition ConfigurationException (msg : string)
    (d : option (list (string * string))) : ChatBotException :=
  {| message := msg; code := "CONFIGURATION_ERROR"; status_code := 500;
     details := details_or_empty d |}.

(** [details={"service": service, **(details or {})}] *)
Definition ServiceUnavailableException (service : string)
    (d : option (list (string * string))) : ChatBotException :=
  {| message := "Service '" +:+ service +:+ "' is currently unavailable";
     code := "SERVICE_UNAVAILABLE"; status_code := 503;
     details := dict_update [("service", service)] (details_or_empty d) |}.

(** The classes of the hierarchy below [ChatBotException], with the
    arguments of their constructors. *)
Inductive subclass :=
| Validation (msg : string) (d : option (list (string * string)))
| SessionNotFoundC (session_id : string)
| UserNotFoundC (user_id : string)
| UserAlreadyExistsC (user_id : string)
| GroqAPI (msg : string) (d : option (list (string * string)))
| Database (msg : string) (d : option (list (string * string)))
| RateLimit (user_id : option string)
| Configuration (msg : string) (d : option (list (string * string)))
| ServiceUnavailable (service : string) (d : option (list (string * string))).

Definition construct (c : subclass) : ChatBotException :=
  match c with
  | Validation m d => ValidationException m d
  | SessionNotFoundC i => SessionNotFoundException i
  | UserNotFoundC i => UserNotFoundException i
  | UserAlreadyExistsC i => UserAlreadyExistsException i
  | GroqAPI m d => GroqAPIException m d
  | Database m d => DatabaseException m d
  | RateLimit u => RateLimitException u
  | Configuration m d => ConfigurationException m d
  | ServiceUnavailable sv d => ServiceUnavailableException sv d
  end.

(** The class of an instance, without its arguments. *)
Definition class_name (c : subclass) : string :=
  match c with
  | Validation _ _ => "ValidationException"
  | SessionNotFoundC _ => "SessionNotFoundException"
  | UserNotFoundC _ => "UserNotFoundException"
  | UserAlreadyExistsC _ => "UserAlreadyExistsException"
  | GroqAPI _ _ => "GroqAPIException"
  | Database _ _ => "DatabaseException"
  | RateLimit _ => "RateLimitException"
  | Configuration _ _ => "ConfigurationException"
  | ServiceUnavailable _ _ => "ServiceUnavailableException"
  end.

(** The object under ["error"] in what [to_dict] returns. *)
Record ErrorBody := {
  error_code : string;
  error_message : string;
  error_details : option (list (string * string))
}.

Definition to_dict (e : ChatBotException) : ErrorBody :=
  {| error_code := code e; error_message := message e;
     error_details := Some (details e) |}.

(** The exception classes that occur in the modelled code.  [Exception]
    stands for any other subclass of Python's [Exception]; [BaseOnly] for a
    [BaseException] outside [Exception] ([asyncio.CancelledError],
    [GeneratorExit], [KeyboardInterrupt]). *)
Inductive exn :=
| SessionNotFound (e : ChatBotException)
| UserNotFound (e : ChatBotException)
| UserAlreadyExists (e : ChatBotException)
| IntegrityError (msg : string)
| RetryError (msg : string)
| RuntimeError (msg : string)
| Exception (msg : string)
| BaseOnly (msg : string).

(** [isinstance(e, Exception)], the test of an [except Exception] clause. *)
Definition is_Exception (e : exn) : bool :=
  match e with
  | BaseOnly _ => false
  | _ => true
  end.

(** [str(e)]: a [ChatBotException] passes [self.message] to
    [Exception.__init__]. *)
Definition str (e : exn) : string :=
  match e with
  | SessionNotFound c | UserNotFound c | UserAlreadyExists c => message c
  | IntegrityError m | RetryError m | RuntimeError m | Exception m
  | BaseOnly m => m
  end.

End Exceptions.

Import Exceptions.

(** ** The rows of the relational store *)

Module Models.

(** The [User] row.  The service and [UserResponse] read exactly these
    columns. *)
Record User := {
  user_id : string;
  name : option string;
  city : option string;
  created_at : Z;
  session_count : Z
}.

Inductive SessionStatus := ACTIVE | DELETED.

(** The [ChatSession] row, columns as read by the session service and
    [UserSessionSummary]. *)
Record ChatSession := {
  id : N;
  owner : string;
  user_name : option string;
  location : option string;
  status : SessionStatus;
  message_count : Z;
  session_created_at : Z
}.

Inductive Role := RUser | RAssistant.

(** A persisted turn. *)
Record Message := {
  msg_session : N;
  role : Role;
  content : string
}.

(** What a constructor call cannot know by itself: the clock behind the
    [created_at] default and the next value the [uuid4] default yields. *)
Record Env := { now : Z; uuid4 : N }.

(** Modelled from the spec: app/models/user.py is absent; [User(user_id=..,
    name=.., city=..)] fills the remaining columns with their defaults, a
    "count of sessions created" that starts at 0 ([UserResponse.session_count]
    has the same default) and the creation time. *)
Definition new_User (env : Env) (uid : string) (nm ct : option string) : User :=
  {| user_id := uid; name := nm; city := ct;
     created_at := now env; session_count := 0 |}.

(** Modelled from the spec: [User.increment_session_count] of the absent
    app/models/user.py, "increments the user's session count exactly once per
    session created": one call adds one. *)
Definition increment_session_count (u : User) : User :=
  {| user_id := user_id u; name := name u; city := city u;
     created_at := created_at u; session_count := session_count u + 1 |}.

(** Modelled from the spec: app/models/session.py is absent; a new session is
    [active] with no messages. *)
Definition new_ChatSession (env : Env) (sid : N) (uid : string)
    (nm loc : option string) : ChatSession :=
  {| id := sid; owner := uid; user_name := nm; location := loc;
     status := ACTIVE; message_count := 0; session_created_at := now env |}.

Definition set_name (nm : option string) (u : User) : User :=
  {| user_id := user_id u; name := nm; city := city u;
     created_at := created_at u; session_count := session_count u |}.

Definition set_city (ct : option string) (u : User) : User :=
  {| user_id := user_id u; name := name u; city := ct;
     created_at := created_at u; session_count := session_count u |}.

End Models.

Import Models.

#[export] Instance SessionStatus_eq_dec : EqDecision SessionStatus.
Proof. solve_decision. Defined.

(** ** app/schemas/user.py *)

Module Schemas.

Record UserResponse := {
  user_id : string;
  name : option string;
  city : option string;
  created_at : Z;
  session_count : Z
}.

Record UserSessionSummary := {
  id : N;
  summary_created_at : Z;
  status : SessionStatus;
  message_count : Z
}.

Record UserSessionsResponse := {
  owner_id : string;
  listed : list UserSessionSummary;
  listed_count : Z
}.

Record UserWithSessions := {
  uws_user_id : string;
  uws_name : option string;
  uws_city : option string;
  uws_created_at : Z;
  uws_session_count : Z;
  uws_sessions : list UserSessionSummary
}.

End Schemas.

(** ** The SQLAlchemy session, as the services use it *)

Module Db.

(** The view of the database inside the request's transaction. *)
Record Store := {
  users : gmap string User;
  sessions : gmap N ChatSession;
  messages : list Message
}.

(** Outcome of a call: a value or a raised exception, and the store left
    behind in both cases. *)
Inductive res (A : Type) :=
| Ok (a : A) (s : Store)
| Raise (e : exn) (s : Store).
Arguments Ok {A} a s.
Arguments Raise {A} e s.

Definition M (A : Type) : Type := Store → res A.

Definition ret {A} (a : A) : M A := fun s => Ok a s.
Definition raise {A} (e : exn) : M A := fun s => Raise e s.
Definition bind {A B} (m : M A) (k : A → M B) : M B :=
  fun s => match m s with
           | Ok a s' => k a s'
           | Raise e s' => Raise e s'
           end.

(** The store a call leaves behind, whichever way it ended. *)
Definition store_of {A} (r : res A) : Store :=
  match r with Ok _ s | Raise _ s => s end.

(** [await self.db.get(User, user_id)] *)
Definition get_User (uid : string) : M (option User) :=
  fun s => Ok (users s !! uid) s.

(** [await self.db.get(ChatSession, session_id)] *)
Definition get_ChatSession (sid : N) : M (option ChatSession) :=
  fun s => Ok (sessions s !! sid) s.

(** [self.db.add(user)] followed by [await self.db.flush()]: the INSERT.  The
    primary key rejects a second row with the same [user_id]. *)
Definition add_User (u : User) : M unit :=
  fun s => match users s !! user_id u with
           | Some _ => Raise (IntegrityError "UNIQUE constraint failed: users.user_id") s
           | None => Ok tt {| users := <[user_id u := u]> (users s);
                              sessions := sessions s;
                              messages := messages s |}
           end.

(** [self.db.add(chat_session)] followed by [await self.db.flush()]. *)
Definition add_ChatSession (c : ChatSession) : M unit :=
  fun s => match sessions s !! id c with
           | Some _ => Raise (IntegrityError "UNIQUE constraint failed: sessions.id") s
           | None => Ok tt {| users := users s;
                              sessions := <[id c := c]> (sessions s);
                              messages := messages s |}
           end.

(** An attribute assignment on a loaded [User] followed by
    [await self.db.flush()]: the UPDATE of the row with that key. *)
Definition flush_User (u : User) : M unit :=
  fun s => Ok tt {| users := <[user_id u := u]> (users s);
                    sessions := sessions s;
                    messages := messages s |}.

(** Modelled from the spec: [await self.db.delete(chat_session)] and the
    flush.  The relationship declared in the absent app/models/session.py
    decides what goes with the row; by the spec "deletion is terminal and
    cascades to its turns". *)
Definition delete_ChatSession (c : ChatSession) : M unit :=
  fun s => Ok tt {| users := users s;
                    sessions := delete (id c) (sessions s);
                    messages := filter (λ m, msg_session m ≠ id c) (messages s) |}.

(** [await self.db.delete(user)] and the flush.  What goes with the row is
    declared on the relationship in the absent app/models/user.py; the
    docstrings of [delete_user] ("Delete a user and cascadingly remove their
    sessions/messages") and of its endpoint ("Delete a user and all their
    sessions") say it: the sessions the user owns and the turns of those
    sessions. *)
Definition delete_User (u : User) : M unit :=
  fun s => Ok tt {| users := delete (user_id u) (users s);
                    sessions :=
                      filter (λ kc, owner kc.2 ≠ user_id u) (sessions s);
                    messages :=
                      filter (λ m, owner <$> sessions s !! msg_session m
                                   ≠ Some (user_id u)) (messages s) |}.

(** The rows of the sessions table, in the order the database hands them
    out. *)
Definition session_rows (s : Store) : list ChatSession :=
  (map_to_list (sessions s)).*2.

(** The rows of the users table, likewise. *)
Definition user_rows (s : Store) : list User :=
  (map_to_list (users s)).*2.

(** The relationship [User.sessions]: the sessions whose [user_id] is the
    user's. *)
Definition sessions_of (u : User) (s : Store) : list ChatSession :=
  List.filter (λ c, bool_decide (owner c = user_id u)) (session_rows s).

End Db.

Import Db.

#[export] Instance M_ret : MRet Db.M := @Db.ret.
#[export] Instance M_bind : MBind Db.M := fun A B k m => Db.bind m k.

(** ** app/services/user_service.py *)

Module UserService.

(** [select(User.user_id).where(User.user_id == user_id)], then
    [result.first() is not None] *)
Definition _user_exists (uid : string) : M bool :=
  fun s => Ok (bool_decide (is_Some (users s !! uid))) s.

Definition create_user (env : Env) (uid : string) (nm ct : option string)
    : M User :=
  found ← _user_exists uid;
  if (found : bool) then raise (UserAlreadyExists (UserAlreadyExistsException uid))
  else
    let user := new_User env uid nm ct in
    add_User user;;
    ret user.

Definition get_user (uid : string) : M User :=
  user ← get_User uid;
  match user with
  | None => raise (UserNotFound (UserNotFoundException uid))
  | Some u => ret u
  end.

Definition update_user (uid : string) (nm ct : option string) : M User :=
  user ← get_user uid;
  let user := match nm with Some _ => set_name nm user | None => user end in
  let user := match ct with Some _ => set_city ct user | None => user end in
  flush_User user;;
  ret user.

(** [updated] is set exactly when one of the two assignments ran, and the
    flush that writes the row runs under it. *)
Definition get_or_create_user (env : Env) (uid : string)
    (nm ct : option string) : M User :=
  user ← get_User uid;
  match user with
  | Some u =>
      let '(u, updated) :=
        match nm with
        | Some _ => if bool_decide (name u ≠ nm) then (set_name nm u, true)
                    else (u, false)
        | None => (u, false)
        end in
      let '(u, updated) :=
        match ct with
        | Some _ => if bool_decide (city u ≠ ct) then (set_city ct u, true)
                    else (u, updated)
        | None => (u, updated)
        end in
      if (updated : bool) then flush_User u ;; ret u else ret u
  | None => create_user env uid nm ct
  end.

Definition increment_session_count (uid : string) : M unit :=
  user ← get_user uid;
  flush_User (Models.increment_session_count user).

Definition delete_user (uid : string) : M unit :=
  user ← get_user uid;
  delete_User user.

(** [UserSessionSummary(id=s.id, created_at=s.created_at, status=s.status,
    message_count=s.message_count)] *)
Definition summary (c : ChatSession) : Schemas.UserSessionSummary :=
  {| Schemas.id := Models.id c;
     Schemas.summary_created_at := session_created_at c;
     Schemas.status := Models.status c;
     Schemas.message_count := Models.message_count c |}.

(** [user_sessions] is the loaded [user.sessions]. *)
Definition _map_user_with_sessions (user : User)
    (user_sessions : list ChatSession) : Schemas.UserWithSessions :=
  let active_sessions :=
    List.filter (λ c, bool_decide (Models.status c = ACTIVE)
                      && (0 <? Models.message_count c)%Z) user_sessions in
  let active_sessions := sort_desc session_created_at active_sessions in
  let session_summaries := map summary active_sessions in
  {| Schemas.uws_user_id := Models.user_id user;
     Schemas.uws_name := Models.name user;
     Schemas.uws_city := Models.city user;
     Schemas.uws_created_at := Models.created_at user;
     Schemas.uws_session_count := Z.of_nat (length session_summaries);
     Schemas.uws_sessions := session_summaries |}.

(** [select(User).options(selectinload(User.sessions)).limit(limit)
    .offset(offset)]: skip [offset] rows, keep at most [limit].  The
    endpoint admits [limit] from 1 to 100 and [offset] from 0. *)
Definition get_users_with_sessions (limit offset : nat)
    : M (list Schemas.UserWithSessions) :=
  fun s =>
    let users := take limit (drop offset (user_rows s)) in
    Ok (map (λ user, _map_user_with_sessions user (sessions_of user s)) users) s.

End UserService.

(** ** app/services/session_service.py *)

Module SessionService.

Definition hex_digit (d : N) : ascii :=
  nth (N.to_nat d) (list_ascii_of_string "0123456789abcdef") "0"%char.

Fixpoint hex_digits (k : nat) (n : N) (acc : string) : string :=
  match k with
  | O => acc
  | S k' => hex_digits k' (n / 16)%N (String (hex_digit (n mod 16)%N) acc)
  end.

(** [str(session_id)]: the 32 hexadecimal digits of the UUID in groups of
    8-4-4-4-12. *)
Definition str_UUID (u : N) : string :=
  let h := hex_digits 32 u "" in
  substring 0 8 h +:+ "-" +:+ substring 8 4 h +:+ "-" +:+ substring 12 4 h
    +:+ "-" +:+ substring 16 4 h +:+ "-" +:+ substring 20 12 h.

(** A [UUID] object is always truthy, so [if session_id:] tests for
    [None]; without an ["id"] keyword the column default draws a [uuid4]. *)
Definition create_session (env : Env) (uid : string) (session_id : option N)
    (user_name location : option string) : M ChatSession :=
  user ← UserService.get_or_create_user env uid None None;
  let final_user_name := py_or user_name (name user) in
  let final_location := py_or location (city user) in
  let sid := match session_id with Some i => i | None => uuid4 env end in
  let chat_session :=
    new_ChatSession env sid uid final_user_name final_location in
  add_ChatSession chat_session;;
  UserService.increment_session_count uid;;
  mret chat_session.

Definition get_session (session_id : N) : M ChatSession :=
  chat_session ← get_ChatSession session_id;
  match chat_session with
  | None => raise (SessionNotFound (SessionNotFoundException (str_UUID session_id)))
  | Some c => mret c
  end.

Definition delete_session (session_id : N) : M unit :=
  chat_session ← get_session session_id;
  delete_ChatSession chat_session.

(** The [select] of [get_user_sessions]: the user's active sessions with at
    least [min_messages] messages, newest first, [offset] rows skipped and at
    most [limit] kept.  The order among sessions created at the same instant
    is the database's; here they stay in row order. *)
Definition get_user_sessions (uid : string) (limit offset : nat)
    (min_messages : Z) : M (list ChatSession) :=
  fun s =>
    let rows :=
      List.filter (λ c, bool_decide (owner c = uid)
                        && bool_decide (status c = ACTIVE)
                        && (min_messages <=? message_count c)%Z)
                  (session_rows s) in
    Ok (take limit (drop offset (sort_desc session_created_at rows))) s.

(** [select(ChatSession).where(ChatSession.id == session_id,
    ChatSession.user_id == user_id)] and [scalar_one_or_none()]: the primary
    key admits at most one row. *)
Definition get_user_session (uid : string) (session_id : N) : M ChatSession :=
  fun s =>
    match sessions s !! session_id with
    | Some c =>
        if bool_decide (owner c = uid) then Ok c s
        else Raise (SessionNotFound
                      (SessionNotFoundException (str_UUID session_id))) s
    | None =>
        Raise (SessionNotFound
                 (SessionNotFoundException (str_UUID session_id))) s
    end.

End SessionService.

(** ** app/core/config.py *)

Module Config.

(** The settings the pipeline consumes. *)
Record Settings := {
  context_window_size : nat;
  max_message_length : nat;
  rate_limit_per_minute : nat
}.

(** The field defaults of [Settings]. *)
Definition default_settings : Settings :=
  {| context_window_size := 10;
     max_message_length := 500;
     rate_limit_per_minute := 20 |}.

(** [c.isspace()] for a character below 256: tab to carriage return, the
    four separators 28 to 31, the blank, NEL and the no-break space. *)
Definition isspace (c : ascii) : bool :=
  let n := nat_of_ascii c in
  (Nat.leb 9 n && Nat.leb n 13) || (Nat.leb 28 n && Nat.leb n 32)
  || Nat.eqb n 133 || Nat.eqb n 160.

(** [s.lstrip()] *)
Fixpoint lstrip (s : string) : string :=
  match s with
  | EmptyString => EmptyString
  | String c s' => if isspace c then lstrip s' else s
  end.

(** [s.rstrip()]: a character goes when it is a blank and everything
    behind it went. *)
Fixpoint rstrip (s : string) : string :=
  match s with
  | EmptyString => EmptyString
  | String c s' =>
      match rstrip s' with
      | EmptyString => if isspace c then EmptyString else String c EmptyString
      | r => String c r
      end
  end.

(** [s.strip()] *)
Definition strip (s : string) : string := rstrip (lstrip s).

(** [Settings.validate_groq_api_key]: the value, or the message of the
    [ValueError]. *)
Definition validate_groq_api_key (v : string) : string + string :=
  if negb (truthy (Some v)) || String.eqb (strip v) ""
     || String.prefix "your_" v
  then inl "GROQ_API_KEY is not configured. Please set it in .env file"
  else inr v.

End Config.

(** ** The context window *)

Module ContextWindow.

(** The persisted turns of one session, oldest first. *)
Definition session_turns (sid : N) (s : Store) : list Message :=
  filter (λ m, msg_session m = sid) (messages s).

(** The [w] newest entries of a chronological list, in chronological order:
    read newest first, cut after [w], turn around. *)
Definition most_recent {A} (w : nat) (l : list A) : list A :=
  rev (take w (rev l)).

(** Modelled from the spec: the context builder lives in the absent
    app/services/chat_service.py.  "Given a session identifier and the new
    user message, produce an ordered sequence of turns to present to the
    model: the most recent W persisted turns for the session (oldest first)
    followed by the new user message, where W is a configured context-window
    size (default 10).  If the session has fewer than W prior turns, all of
    them are included."  The length check on the message is the gate
    [validate_message] ahead of it, which rejects before any session, model
    or persistence work. *)
Definition build_context (cfg : Config.Settings) (sid : N) (new_message : string)
    (s : Store) : list Message :=
  most_recent (Config.context_window_size cfg) (session_turns sid s)
    ++ [ {| msg_session := sid; role := RUser; content := new_message |} ].

(** Modelled from the spec: "The new message's content is rejected
    (validation error) if it exceeds the configured maximum length; this
    check happens before any model call." *)
Definition validate_message (cfg : Config.Settings) (new_message : string) : bool :=
  Nat.leb (String.length new_message) (Config.max_message_length cfg).

End ContextWindow.

(** ** app/core/logging.py: the context variables and [LogContext] *)

Module Logging.

(** The current [contextvars.Context]: the variables that have been set,
    by name, with their values.  All three variables are
    [ContextVar[str | None]] with default [None]. *)
Abbreviation Context := (gmap string (option string)).

Definition request_id_var : string := "request_id".
Definition session_id_var : string := "session_id".
Definition user_id_var : string := "user_id".

(** [var.get()]: the value set in the context, else the default [None]. *)
Definition get (var : string) (ctx : Context) : option string :=
  match ctx !! var with
  | Some v => v
  | None => None
  end.

(** The token handed out by [var.set]: the variable, the binding it
    replaced ([None] here is [Token.MISSING]) and whether it was used. *)
Record Token := {
  var : string;
  old_value : option (option string);
  used : bool
}.

(** [var.set(value)] *)
Definition set (v : string) (value : option string) (ctx : Context)
    : Token * Context :=
  ({| var := v; old_value := ctx !! v; used := false |}, <[v := value]> ctx).

(** [token.var.reset(token)]: a used token raises [RuntimeError]; otherwise
    the replaced binding comes back and the token is marked used. *)
Definition reset (t : Token) (ctx : Context) : exn + (Token * Context) :=
  if used t then inl (RuntimeError "Token has already been used once")
  else inr ({| var := var t; old_value := old_value t; used := true |},
            match old_value t with
            | Some v => <[var t := v]> ctx
            | None => delete (var t) ctx
            end).

(** The instance attributes [__init__] stores. *)
Record LogContext := {
  request_id : option string;
  session_id : option string;
  user_id : option string;
  _tokens : list Token
}.

Definition __init__ (rid sid uid : option string) : LogContext :=
  {| request_id := rid; session_id := sid; user_id := uid; _tokens := [] |}.

(** One [if self.x: self._tokens.append(x_var.set(self.x))]. *)
Definition set_if (v : string) (value : option string)
    (st : list Token * Context) : list Token * Context :=
  if truthy value then
    let '(t, ctx) := set v value st.2 in (st.1 ++ [t], ctx)
  else st.

Definition __enter__ (self : LogContext) (ctx : Context)
    : LogContext * Context :=
  let st := (_tokens self, ctx) in
  let st := set_if request_id_var (request_id self) st in
  let st := set_if session_id_var (session_id self) st in
  let st := set_if user_id_var (user_id self) st in
  ({| request_id := request_id self; session_id := session_id self;
      user_id := user_id self; _tokens := st.1 |}, st.2).

(** The loop of [__exit__] over the tokens it is handed, in that order.
    Returns the exception that stopped it, if any, the tokens as the loop
    left them and the context. *)
Fixpoint reset_each (ts : list Token) (ctx : Context)
    : option exn * list Token * Context :=
  match ts with
  | [] => (None, [], ctx)
  | t :: ts' =>
      match reset t ctx with
      | inl e => (Some e, t :: ts', ctx)
      | inr (t', ctx') =>
          let '(r, ts'', ctx'') := reset_each ts' ctx' in (r, t' :: ts'', ctx'')
      end
  end.

(** [for token in reversed(self._tokens): token.var.reset(token)].  The
    arguments of [__exit__] are ignored, and it returns [None]. *)
Definition __exit__ (self : LogContext) (ctx : Context)
    : option exn * LogContext * Context :=
  let '(r, ts, ctx') := reset_each (rev (_tokens self)) ctx in
  (r, {| request_id := request_id self; session_id := session_id self;
         user_id := user_id self; _tokens := rev ts |}, ctx').

(** How a block of statements ends. *)
Inductive outcome (A : Type) :=
| Normal (a : A)
| Raised (e : exn).
Arguments Normal {A} a.
Arguments Raised {A} e.

(** [with LogContext(request_id=.., session_id=.., user_id=..): body].
    [__exit__] runs on both ways out of the body; as it returns [None], an
    exception of the body goes on after it. *)
Definition with_LogContext {A} (rid sid uid : option string)
    (body : Context → outcome A * Context) (ctx : Context)
    : outcome A * Context :=
  let self := __init__ rid sid uid in
  let '(self, ctx1) := __enter__ self ctx in
  let '(r, ctx2) := body ctx1 in
  let '(err, _, ctx3) := __exit__ self ctx2 in
  match err with
  | Some e => (Raised e, ctx3)
  | None => (r, ctx3)
  end.

(** What [JSONFormatter.format] reads off a [logging.LogRecord]: the level
    name, the logger name, [getMessage()], the [extra] attribute when the
    record has one, and the formatted [exc_info] when there is one. *)
Record LogRecord := {
  levelname : string;
  logger : string;
  getMessage : string;
  extra : option (list (string * string));
  exc_info : option string
}.

(** One [if value := var.get(): log_data[key] = value]. *)
Definition add_if_set (key var : string) (ctx : Context)
    (log_data : list (string * string)) : list (string * string) :=
  match get var ctx with
  | Some v => if truthy (Some v) then dict_set key v log_data else log_data
  | None => log_data
  end.

(** [JSONFormatter.format], up to the final [json.dumps]: the dictionary
    that is serialised.  [timestamp] is [datetime.now(timezone.utc)
    .isoformat()]. *)
Definition format (timestamp : string) (record : LogRecord) (ctx : Context)
    : list (string * string) :=
  let log_data := [("timestamp", timestamp); ("level", levelname record);
                   ("logger", logger record);
                   ("message", getMessage record)] in
  let log_data := add_if_set "request_id" request_id_var ctx log_data in
  let log_data := add_if_set "session_id" session_id_var ctx log_data in
  let log_data := add_if_set "user_id" user_id_var ctx log_data in
  let log_data := match extra record with
                  | Some e => dict_update log_data e
                  | None => log_data
                  end in
  match exc_info record with
  | Some text => dict_set "exception" text log_data
  | None => log_data
  end.

End Logging.

(** ** app/db/engine.py: the startup check *)

Module Engine.

(** What startup does to the outside world, in order. *)
Inductive io :=
| Migrate
| Connect (ok : bool)
| Sleep (seconds : Z).

(** The outside world at startup: what [command.upgrade] raises, if
    anything; whether the [k]-th connection attempt of the process reaches
    the database; the attempts made so far; the log of effects. *)
Record World := {
  migration : option exn;
  db_up : nat → bool;
  attempts : nat;
  trace : list io
}.

Definition IO (A : Type) : Type := World → (exn + A) * World.

Definition log (e : io) (w : World) : World :=
  {| migration := migration w; db_up := db_up w;
     attempts := attempts w; trace := trace w ++ [e] |}.

(** The body of [verify_connection]: open a connection and run
    [SELECT 1]. *)
Definition connect : IO unit :=
  fun w =>
    let ok := db_up w (attempts w) in
    let w' := {| migration := migration w; db_up := db_up w;
                 attempts := S (attempts w);
                 trace := trace w ++ [Connect ok] |} in
    (if ok then inr tt else inl (Exception "OperationalError"), w').

(** tenacity's loop for [@retry(stop=stop_after_attempt(n),
    wait=wait_fixed(d))]: call; on an [Exception] stop with [RetryError]
    once the attempt number has reached [n], else sleep [d] seconds and call
    again.  [retries_left] is [n] minus the attempt number. *)
Fixpoint retry_loop {A} (retries_left : nat) (wait_fixed : Z) (fn : IO A)
    (w : World) : (exn + A) * World :=
  match fn w with
  | (inr a, w') => (inr a, w')
  | (inl e, w') =>
      if is_Exception e then
        match retries_left with
        | O => (inl (RetryError ("RetryError[" +:+ str e +:+ "]")), w')
        | S k => retry_loop k wait_fixed fn (log (Sleep wait_fixed) w')
        end
      else (inl e, w')
  end.

Definition retry {A} (stop_after_attempt : nat) (wait_fixed : Z) (fn : IO A)
    : IO A :=
  retry_loop (pred stop_after_attempt) wait_fixed fn.

Definition verify_connection : IO unit := retry 5 2 connect.

(** [await asyncio.to_thread(command.upgrade, alembic_cfg, "head")] *)
Definition upgrade : IO unit :=
  fun w =>
    (match migration w with Some e => inl e | None => inr tt end,
     log Migrate w).

Definition init_db : IO unit :=
  fun w =>
    let try :=
      match upgrade w with
      | (inr _, w1) => verify_connection w1
      | (inl e, w1) => (inl e, w1)
      end in
    match try with
    | (inl e, w') =>
        if is_Exception e
        then (inl (RuntimeError ("Database unavailable: " +:+ str e)), w')
        else (inl e, w')
    | (inr _, w') => (inr tt, w')
    end.

(** The startup half of [lifespan] in app/main.py: the application is
    handed over to the server only when [init_db] returns. *)
Inductive startup :=
| Serving
| Aborted (e : exn).

Definition lifespan_startup (w : World) : startup * World :=
  match init_db w with
  | (inr _, w') => (Serving, w')
  | (inl e, w') => (Aborted e, w')
  end.

(** [k] failed attempts, each followed by its pause. *)
Definition failed_rounds (k : nat) : list io :=
  concat (replicate k [Connect false; Sleep 2]).

(** The seconds slept in a log of effects. *)
Fixpoint slept (t : list io) : Z :=
  match t with
  | [] => 0
  | Sleep d :: t' => d + slept t'
  | _ :: t' => slept t'
  end.

End Engine.

(** ** app/api/v1/chat.py: the event generator *)

Module Chat.

(** An event as the generator yields it: the ["event"] entry and the
    object that ["data"] serialises with [json.dumps]. *)
Record SSE := {
  event : string;
  data : list (string * string)
}.

Definition session_created (sid : N) : SSE :=
  {| event := "session_created";
     data := [("session_id", SessionService.str_UUID sid)] |}.

Definition token (t : string) : SSE :=
  {| event := "token"; data := [("token", t)] |}.

Definition done (sid : N) : SSE :=
  {| event := "done";
     data := [("status", "complete");
              ("session_id", SessionService.str_UUID sid)] |}.

Definition error (msg : string) : SSE :=
  {| event := "error"; data := [("error", msg)] |}.

(** One run of the async generator [service.handle_chat(..)], which lives in
    the absent app/services/chat_service.py: it yields a token and goes on,
    or is exhausted, or raises. *)
Inductive agen :=
| Yield (t : string) (rest : agen)
| Exhausted
| Raises (e : exn).

Fixpoint yielded (g : agen) : list string :=
  match g with
  | Yield t rest => t :: yielded rest
  | Exhausted | Raises _ => []
  end.

Fixpoint raised (g : agen) : option exn :=
  match g with
  | Yield _ rest => raised rest
  | Exhausted => None
  | Raises e => Some e
  end.

(** [async for token in service.handle_chat(..): yield {"event": "token",
    ..}]: the events yielded and the exception that left the loop, if
    any. *)
Fixpoint stream_tokens (g : agen) : list SSE * option exn :=
  match g with
  | Yield t rest =>
      let '(evs, r) := stream_tokens rest in (token t :: evs, r)
  | Exhausted => ([], None)
  | Raises e => ([], Some e)
  end.

(** The generator run to its end by the transport: the events in the order
    yielded, and the exception it ends with when one leaves it. *)
Definition event_generator (sid : N) (handle_chat : agen)
    : list SSE * option exn :=
  let try :=
    let first := [session_created sid] in
    match stream_tokens handle_chat with
    | (evs, None) => (first ++ evs ++ [done sid], None)
    | (evs, Some e) => (first ++ evs, Some e)
    end in
  match try with
  | (evs, Some e) =>
      if is_Exception e then (evs ++ [error (str e)], None)
      else (evs, Some e)
  | (evs, None) => (evs, None)
  end.

Definition is_terminal (ev : SSE) : bool :=
  String.eqb (event ev) "done" || String.eqb (event ev) "error".

Definition has_event (nm : string) (ev : SSE) : bool :=
  String.eqb (event ev) nm.

(** How many events of a list satisfy [p]. *)
Definition count (p : SSE → bool) (evs : list SSE) : nat :=
  length (List.filter p evs).

(** The states of a stream of events and the acceptor that walks them:
    [session_created] first, then tokens, then at most one terminal event,
    then nothing. *)
Inductive phase := INIT | STREAMING | TERMINATED.

Fixpoint accepts (p : phase) (evs : list SSE) : bool :=
  match evs with
  | [] => match p with INIT => false | _ => true end
  | ev :: evs' =>
      match p with
      | INIT => has_event "session_created" ev && accepts STREAMING evs'
      | STREAMING =>
          if has_event "token" ev then accepts STREAMING evs'
          else is_terminal ev && accepts TERMINATED evs'
      | TERMINATED => false
      end
  end.

(** The response [chat] returns.  Calling [event_generator()] makes the
    generator object without running any of its body; what it closes over
    is the session id and the request. *)
Record EventSourceResponse := {
  generator_session : N;
  generator_chat : agen;
  media_type : string
}.

(** [logger.info(f"Chat request received: {len(chat_request.message)}
    chars")] *)
Definition chat_received (message : string) : Logging.LogRecord :=
  {| Logging.levelname := "INFO";
     Logging.logger := "app.api.v1.chat";
     Logging.getMessage :=
       "Chat request received: " +:+ pretty (String.length message)
         +:+ " chars";
     Logging.extra := None;
     Logging.exc_info := None |}.

(** [logger.error(f"Chat error: {e}", exc_info=True)]; [traceback] is the
    formatted exception. *)
Definition chat_error (traceback : string) (e : exn) : Logging.LogRecord :=
  {| Logging.levelname := "ERROR";
     Logging.logger := "app.api.v1.chat";
     Logging.getMessage := "Chat error: " +:+ str e;
     Logging.extra := None;
     Logging.exc_info := Some traceback |}.

(** The endpoint [chat], from the point where the rate limit has let the
    request in.  [request_id] is what [generate_request_id()] gave and
    [resolved] how [service.resolve_session(..)] ended, both from modules
    that are absent.  Returns how the call ended, the context it leaves and
    the records it logged, formatted. *)
Definition chat (timestamp request_id : string) (resolved : exn + N)
    (message : string) (handle_chat : agen) (ctx : Logging.Context)
    : Logging.outcome EventSourceResponse * Logging.Context
      * list (list (string * string)) :=
  match resolved with
  | inl e => (Logging.Raised e, ctx, [])
  | inr session_id =>
      let '(r, ctx') :=
        Logging.with_LogContext (Some request_id)
          (Some (SessionService.str_UUID session_id)) None
          (λ c, (Logging.Normal
                   ({| generator_session := session_id;
                       generator_chat := handle_chat;
                       media_type := "text/event-stream" |},
                    [Logging.format timestamp (chat_received message) c]),
                 c))
          ctx in
      match r with
      | Logging.Normal (response, logged) =>
          (Logging.Normal response, ctx', logged)
      | Logging.Raised e => (Logging.Raised e, ctx', [])
      end
  end.

(** The generator of a response run to its end in the context [ctx], with
    what its [except] clause logs. *)
Definition run_generator (timestamp traceback : string)
    (response : EventSourceResponse) (ctx : Logging.Context)
    : list SSE * option exn * list (list (string * string)) :=
  let sid := generator_session response in
  let try :=
    let first := [session_created sid] in
    match stream_tokens (generator_chat response) with
    | (evs, None) => (first ++ evs ++ [done sid], None)
    | (evs, Some e) => (first ++ evs, Some e)
    end in
  match try with
  | (evs, Some e) =>
      if is_Exception e
      then (evs ++ [error (str e)], None,
            [Logging.format timestamp (chat_error traceback e) ctx])
      else (evs, Some e, [])
  | (evs, None) => (evs, None, [])
  end.

End Chat.

(** ** app/utils/streaming.py *)

Module Streaming.

(** [async for token in generator: yield {"data": token}]: the ["data"] of
    the events yielded and the exception that left the loop, if any. *)
Fixpoint forward (generator : Chat.agen) : list string * option exn :=
  match generator with
  | Chat.Yield t rest => let '(ds, r) := forward rest in (t :: ds, r)
  | Chat.Exhausted => ([], None)
  | Chat.Raises e => ([], Some e)
  end.

(** The generator inside [create_sse_response], run to its end: no
    [try], so whatever the source raises leaves it. *)
Definition create_sse_response (generator : Chat.agen)
    : list string * option exn :=
  match forward generator with
  | (ds, None) => (ds ++ ["[DONE]"], None)
  | (ds, Some e) => (ds, Some e)
  end.

End Streaming.

(** ** app/api/v1/health.py *)

Module Health.

(** How [get_groq_client().client] turns out: the import or the call
    raises, the client attribute is falsy, or it is there. *)
Inductive groq_probe :=
| GroqRaises (e : exn)
| GroqNoClient
| GroqReady.

Record HealthResponse := {
  status : string;
  timestamp : Z;
  version : string;
  database : string;
  groq : string
}.

(** One [try: .. except Exception: status = "error"] around a probe. *)
Definition guarded (failure : option exn) (falsy : bool) : exn + string :=
  match failure with
  | Some e => if is_Exception e then inr "error" else inl e
  | None => inr (if falsy then "error" else "ok")
  end.

(** [db_probe] is what [session.execute(text("SELECT 1"))] raises, if
    anything. *)
Definition health_check (db_probe : option exn) (groq_client : groq_probe)
    (utc_now : Z) (app_version : string) : exn + HealthResponse :=
  match guarded db_probe false with
  | inl e => inl e
  | inr db_status =>
      match (match groq_client with
             | GroqRaises e => guarded (Some e) false
             | GroqNoClient => guarded None true
             | GroqReady => guarded None false
             end) with
      | inl e => inl e
      | inr groq_status =>
          let is_healthy :=
            String.eqb db_status "ok" && String.eqb groq_status "ok" in
          inr {| status := if is_healthy then "healthy" else "unhealthy";
                 timestamp := utc_now;
                 version := app_version;
                 database := db_status;
                 groq := groq_status |}
      end
  end.

End Health.

(** ** app/main.py and app/api/v1/users.py *)

Module Api.

Inductive content :=
| UserJson (u : Schemas.UserResponse)
| UserSessionsJson (r : Schemas.UserSessionsResponse)
| UsersJson (l : list Schemas.UserWithSessions)
| ErrorJson (e : ErrorBody)
| Empty.

Record Response := {
  status_code : Z;
  body : content
}.

(** [chatbot_exception_handler] *)
Definition chatbot_exception_handler (exc : ChatBotException) : Response :=
  {| status_code := Exceptions.status_code exc;
     body := ErrorJson (to_dict exc) |}.




Record UserCreate := {
  new_user_id : string;
  new_name : option string;
  new_city : option string
}.

Record UserUpdate := {
  upd_name : option string;
  upd_city : option string
}.

(** [UserResponse(user_id=user.user_id, name=user.name, city=user.city,
    created_at=user.created_at, session_count=user.session_count)] *)
Definition user_response (user : User) : Schemas.UserResponse :=
  {| Schemas.user_id := Models.user_id user;
     Schemas.name := Models.name user;
     Schemas.city := Models.city user;
     Schemas.created_at := Models.created_at user;
     Schemas.session_count := Models.session_count user |}.

Definition create_user (env : Env) (request : UserCreate)
    : M Schemas.UserResponse :=
  user ← UserService.create_user env (new_user_id request) (new_name request)
           (new_city request);
  mret (user_response user).

Definition get_user (user_id : string) : M Schemas.UserResponse :=
  user ← UserService.get_user user_id;
  mret (user_response user).

Definition update_user (request : UserUpdate) (user_id : string)
    : M Schemas.UserResponse :=
  user ← UserService.update_user user_id (upd_name request)
           (upd_city request);
  mret (user_response user).

Definition delete_user (user_id : string) : M unit :=
  UserService.delete_user user_id.

Definition get_user_sessions (user_id : string) (limit offset : nat)
    (min_messages : Z) : M Schemas.UserSessionsResponse :=
  sessions ← SessionService.get_user_sessions user_id limit offset
               min_messages;
  mret {| Schemas.owner_id := user_id;
          Schemas.listed := map UserService.summary sessions;
          Schemas.listed_count := Z.of_nat (length sessions) |}.






End Api.

(** ** app/llm/prompts.py *)

Module Prompts.

(** The prompt texts of the module, and the literal that
    [get_system_prompt] appends last. *)
Record Texts := {
  IDENTITY_PROMPT : string;
  BUSINESS_INFO_PROMPT : string;
  MENU_DATA_PROMPT : string;
  BRANCH_LOCATIONS_PROMPT : string;
  INTERACTION_GUIDELINES : string;
  CRITICAL_REMINDER : string
}.

(** The line feed. *)
Definition nl : string := String "010"%char EmptyString.

(** [sep.join(parts)] *)
Fixpoint join (sep : string) (parts : list string) : string :=
  match parts with
  | [] => ""
  | p :: rest =>
      match rest with
      | [] => p
      | _ => p +:+ sep +:+ join sep rest
      end
  end.

Definition get_system_prompt (t : Texts) (user_name location : option string)
    : string :=
  let prompt_parts := [IDENTITY_PROMPT t] in
  let prompt_parts :=
    prompt_parts
    ++ ["## KNOWLEDGE BASE (REFERENCE ONLY)" +:+ nl +:+ nl
        +:+ join (nl +:+ nl) [BUSINESS_INFO_PROMPT t; MENU_DATA_PROMPT t;
                              BRANCH_LOCATIONS_PROMPT t]] in
  let prompt_parts := prompt_parts ++ [INTERACTION_GUIDELINES t] in
  let context_instructions : list string := [] in
  let context_instructions :=
    match user_name with
    | Some u =>
        if truthy user_name
        then context_instructions
             ++ ["- **User Name**: " +:+ u +:+ " (Address them warmly)."]
        else context_instructions
    | None => context_instructions
    end in
  let context_instructions :=
    match location with
    | Some l =>
        if truthy location
        then context_instructions
             ++ ["- **User Location**: " +:+ l +:+ "."]
             ++ ["  - **Instruction**: Prioritize " +:+ l +:+ " branches."]
             ++ ["  - **Instruction**: If they ask for 'branches', list "
                 +:+ l +:+ " ones first."]
        else context_instructions
    | None => context_instructions
    end in
  let prompt_parts :=
    match context_instructions with
    | [] => prompt_parts
    | _ => prompt_parts
           ++ ["## CURRENT CONTEXT" +:+ nl +:+ join nl context_instructions]
    end in
  let prompt_parts := prompt_parts ++ [CRITICAL_REMINDER t] in
  join (nl +:+ nl) prompt_parts.

End Prompts.

(** * Vocabulary of the statements *)

(** ** The store invariant: rows sit under their own primary key *)

Definition keyed (s : Store) : Prop :=
  map_Forall (λ k u, user_id u = k) (users s)
  ∧ map_Forall (λ k c, id c = k) (sessions s).

Ltac run_db :=
  unfold mbind, M_bind, mret, M_ret, Db.bind, Db.ret, Db.raise,
    Db.get_User, Db.get_ChatSession, Db.add_User, Db.add_ChatSession,
    Db.flush_User, Db.delete_ChatSession; simpl.

(** The user row [create_session] works with: the stored one, or the one
    [get_or_create_user] makes. *)
Definition profile (env : Env) (uid : string) (s : Store) : User :=
  default (new_User env uid None None) (users s !! uid).

(** The store after the first step of [create_session]. *)
Definition with_user (env : Env) (uid : string) (s : Store) : Store :=
  {| users := <[uid := profile env uid s]> (users s);
     sessions := sessions s; messages := messages s |}.

(** Whether [__enter__] sets the variable named [k]. *)
Definition set_by_enter (rid sid uid : option string) (k : string) : bool :=
  (truthy rid && String.eqb k Logging.request_id_var)
  || (truthy sid && String.eqb k Logging.session_id_var)
  || (truthy uid && String.eqb k Logging.user_id_var).

(** The row [update_user] writes for the row [u]. *)
Definition patched (nm ct : option string) (u : User) : User :=
  match ct with
  | Some _ => set_city ct match nm with
                          | Some _ => set_name nm u
                          | None => u
                          end
  | None => match nm with Some _ => set_name nm u | None => u end
  end.

(** The store with the row [u] written under [uid]. *)
Definition with_row (uid : string) (u : User) (s : Store) : Store :=
  {| users := <[uid := u]> (users s);
     sessions := sessions s; messages := messages s |}.

(** Every character of [s] is a blank in the sense of [isspace]. *)
Definition all_space (s : string) : bool :=
  forallb Config.isspace (list_ascii_of_string s).

(** The part of the system prompt in front of the user context. *)
Definition static_head (t : Prompts.Texts) : string :=
  Prompts.IDENTITY_PROMPT t +:+ Prompts.nl +:+ Prompts.nl
  +:+ "## KNOWLEDGE BASE (REFERENCE ONLY)" +:+ Prompts.nl +:+ Prompts.nl
  +:+ Prompts.BUSINESS_INFO_PROMPT t +:+ Prompts.nl +:+ Prompts.nl
  +:+ Prompts.MENU_DATA_PROMPT t +:+ Prompts.nl +:+ Prompts.nl
  +:+ Prompts.BRANCH_LOCATIONS_PROMPT t +:+ Prompts.nl +:+ Prompts.nl
  +:+ Prompts.INTERACTION_GUIDELINES t.

(** The part behind it. *)
Definition static_tail (t : Prompts.Texts) : string :=
  Prompts.nl +:+ Prompts.nl +:+ Prompts.CRITICAL_REMINDER t.

(** The lines of the user context: one for a name, three for a
    location. *)
Definition context_lines (user_name location : option string) : list string :=
  (if truthy user_name
   then ["- **User Name**: " +:+ default "" user_name
         +:+ " (Address them warmly)."]
   else [])
  ++ (if truthy location
      then ["- **User Location**: " +:+ default "" location +:+ ".";
            "  - **Instruction**: Prioritize " +:+ default "" location
              +:+ " branches.";
            "  - **Instruction**: If they ask for 'branches', list "
              +:+ default "" location +:+ " ones first."]
      else []).

(** The user context as it stands in the prompt, separator included. *)
Definition user_context (user_name location : option string) : string :=
  match context_lines user_name location with
  | [] => ""
  | ls => Prompts.nl +:+ Prompts.nl +:+ "## CURRENT CONTEXT" +:+ Prompts.nl
          +:+ Prompts.join Prompts.nl ls
  end.

(** In a list ordered newest first, [a] may stand in front of [b]. *)
Definition not_older {A} (key : A → Z) (a b : A) : Prop := (key b <= key a)%Z.


(** ** Sample inputs *)

(** Concrete stores used to exercise the statements. *)
Definition env0 : Env := {| now := 1700000000; uuid4 := 42 |}.

Definition ali : User :=
  {| user_id := "ali"; name := Some "Ali"; city := Some "Lahore";
     created_at := 1690000000; session_count := 3 |}.

Definition empty_store : Store :=
  {| users := ∅; sessions := ∅; messages := [] |}.

Definition store_ali : Store :=
  {| users := {[ "ali" := ali ]}; sessions := ∅; messages := [] |}.

Definition store_chat : Store :=
  {| users := {[ "ali" := ali ]};
     sessions := {[ 7%N := new_ChatSession env0 7 "ali" (Some "Ali") None ]};
     messages :=
       [ {| msg_session := 7; role := RUser; content := "Hi" |};
         {| msg_session := 8; role := RUser; content := "Menu?" |};
         {| msg_session := 7; role := RAssistant; content := "Hello!" |} ] |}.

(** A body that rebinds [request_id] and then fails. *)
Definition failing_body (c : Logging.Context)
    : Logging.outcome unit * Logging.Context :=
  (Logging.Raised (Exception "boom"), <["request_id" := Some "inner"]> c).

Definition outer_context : Logging.Context :=
  {[ "request_id" := Some "outer" ]}.

(** A database that never answers, and one that answers from the third
    attempt on. *)
Definition db_down : Engine.World :=
  {| Engine.migration := None; Engine.db_up := λ _, false;
     Engine.attempts := 0; Engine.trace := [] |}.

Definition db_late : Engine.World :=
  {| Engine.migration := None; Engine.db_up := λ k, Nat.leb 2 k;
     Engine.attempts := 0; Engine.trace := [] |}.

(** A session whose owner is not the user of the store. *)
Definition store_two_owners : Store :=
  {| users := {[ "ali" := ali ]};
     sessions := {[ 7%N := new_ChatSession env0 7 "zara" None None ]};
     messages := [] |}.

Definition sample_texts : Prompts.Texts :=
  {| Prompts.IDENTITY_PROMPT := "You are CheziousBot.";
     Prompts.BUSINESS_INFO_PROMPT := "Hours: 11am to 3am.";
     Prompts.MENU_DATA_PROMPT := "Pizzas, burgers, pasta.";
     Prompts.BRANCH_LOCATIONS_PROMPT := "Lahore, Islamabad.";
     Prompts.INTERACTION_GUIDELINES := "Be concise.";
     Prompts.CRITICAL_REMINDER := "Do not dump the menu." |}.

(** The service yields two tokens and then fails. *)
Definition failing_chat : Chat.agen :=
  Chat.Yield "Hel" (Chat.Yield "lo" (Chat.Raises (Exception "Groq API timeout"))).

(** * Properties *)

Section UserServiceFacts.
Import UserService.

Lemma get_user_found uid s u :
  users s !! uid = Some u → get_user uid s = Ok u s.
Proof. intros H. unfold get_user. run_db. by rewrite H. Qed.

Lemma get_user_missing uid s :
  users s !! uid = None →
  get_user uid s = Raise (UserNotFound (UserNotFoundException uid)) s.
Proof. intros H. unfold get_user. run_db. by rewrite H. Qed.

Lemma create_user_fresh env uid nm ct s :
  users s !! uid = None →
  create_user env uid nm ct s
  = Ok (new_User env uid nm ct)
       {| users := <[uid := new_User env uid nm ct]> (users s);
          sessions := sessions s; messages := messages s |}.
Proof.
  intros H. unfold create_user, _user_exists. run_db.
  rewrite bool_decide_eq_false_2; [| rewrite H; by intros [? ?]].
  by rewrite H.
Qed.

Lemma create_user_taken env uid nm ct s :
  is_Some (users s !! uid) →
  create_user env uid nm ct s
  = Raise (UserAlreadyExists (UserAlreadyExistsException uid)) s.
Proof.
  intros H. unfold create_user, _user_exists. run_db.
  by rewrite bool_decide_eq_true_2.
Qed.

Lemma get_or_create_user_plain env uid s :
  get_or_create_user env uid None None s
  = match users s !! uid with
    | Some u => Ok u s
    | None => create_user env uid None None s
    end.
Proof. unfold get_or_create_user. run_db. by destruct (users s !! uid). Qed.

Lemma increment_session_count_found uid s u :
  users s !! uid = Some u →
  increment_session_count uid s
  = Ok tt {| users := <[user_id u := Models.increment_session_count u]> (users s);
             sessions := sessions s; messages := messages s |}.
Proof.
  intros H. unfold increment_session_count. run_db.
  by rewrite (get_user_found _ _ _ H).
Qed.

End UserServiceFacts.

(** C6.  [create_user] raises [UserAlreadyExistsException], whose HTTP status
    is 409, exactly when a user with the given id exists, and then leaves the
    store as it was; any exception it raises is that one.  Otherwise it
    returns, having added exactly one row, which carries the given id, name
    and city, and nothing else in the store has changed. *)
Theorem create_user_conflict_iff_exists :
  ∀ (env : Env) (uid : string) (nm ct : option string) (s : Store),
    let r := UserService.create_user env uid nm ct s in
    ((∃ s', r = Raise (UserAlreadyExists (UserAlreadyExistsException uid)) s')
       ↔ is_Some (users s !! uid))
    ∧ status_code (UserAlreadyExistsException uid) = 409%Z
    ∧ (∀ e s', r = Raise e s' →
         e = UserAlreadyExists (UserAlreadyExistsException uid) ∧ s' = s)
    ∧ (users s !! uid = None →
         ∃ u s', r = Ok u s'
           ∧ user_id u = uid ∧ name u = nm ∧ city u = ct
           ∧ users s' = <[uid := u]> (users s)
           ∧ size (users s') = S (size (users s))
           ∧ (∀ k, k ≠ uid → users s' !! k = users s !! k)
           ∧ sessions s' = sessions s ∧ messages s' = messages s).
Proof.
  intros env uid nm ct s r. subst r.
  destruct (users s !! uid) as [u0|] eqn:Hlk.
  - rewrite create_user_taken by (rewrite Hlk; eauto).
    repeat split; eauto.
    + congruence.
    + congruence.
    + discriminate.
  - rewrite create_user_fresh by done.
    repeat split.
    + intros [s' H]. discriminate.
    + intros [? ?]. discriminate.
    + discriminate.
    + discriminate.
    + intros _. eexists _, _. split; [reflexivity|]. simpl.
      repeat split.
      * by apply map_size_insert_None.
      * intros k Hk. by rewrite lookup_insert_ne.
Qed.

Lemma keyed_empty_store : keyed empty_store.
Proof. split; apply map_Forall_empty. Qed.

Lemma keyed_store_ali : keyed store_ali.
Proof.
  split; simpl.
  - by apply map_Forall_singleton.
  - apply map_Forall_empty.
Qed.

Lemma create_user_conflict_iff_exists_witness :
  (∃ s', UserService.create_user env0 "ali" None None store_ali
         = Raise (UserAlreadyExists (UserAlreadyExistsException "ali")) s')
  ∧ (∃ u s', UserService.create_user env0 "ali" (Some "Ali") (Some "Lahore")
               empty_store = Ok u s'
             ∧ user_id u = "ali" ∧ name u = Some "Ali" ∧ city u = Some "Lahore"
             ∧ users s' = <["ali" := u]> (users empty_store)
             ∧ size (users s') = S (size (users empty_store))
             ∧ (∀ k, k ≠ "ali" → users s' !! k = users empty_store !! k)
             ∧ sessions s' = sessions empty_store
             ∧ messages s' = messages empty_store).
Proof.
  split.
  - apply (create_user_conflict_iff_exists env0 "ali" None None store_ali).
    exists ali. reflexivity.
  - apply (create_user_conflict_iff_exists env0 "ali" (Some "Ali")
             (Some "Lahore") empty_store).
    reflexivity.
Defined.

(** C10.  On an existing user [update_user] returns; the name and the city
    take the passed value when it is not [None] and keep the previous value
    when it is, so neither can go back to null; [user_id], [created_at] and
    [session_count] are as before, and so are all other rows. *)
Theorem update_user_changes_only_given_fields :
  ∀ (uid : string) (nm ct : option string) (s : Store) (u : User),
    keyed s →
    users s !! uid = Some u →
    ∃ u' s',
      UserService.update_user uid nm ct s = Ok u' s'
      ∧ users s' !! uid = Some u'
      ∧ name u' = match nm with Some _ => nm | None => name u end
      ∧ city u' = match ct with Some _ => ct | None => city u end
      ∧ (is_Some (name u) → is_Some (name u'))
      ∧ (is_Some (city u) → is_Some (city u'))
      ∧ user_id u' = user_id u
      ∧ created_at u' = created_at u
      ∧ session_count u' = session_count u
      ∧ (∀ k, k ≠ uid → users s' !! k = users s !! k)
      ∧ sessions s' = sessions s ∧ messages s' = messages s.
Proof.
  intros uid nm ct s u [Hk _] Hlk.
  pose proof (Hk _ _ Hlk) as Hid; simpl in Hid.
  unfold UserService.update_user. run_db.
  rewrite (get_user_found _ _ _ Hlk).
  eexists _, _. split; [reflexivity|]. simpl.
  assert (Hkey : user_id
            match ct with
            | Some _ => set_city ct match nm with
                                    | Some _ => set_name nm u
                                    | None => u
                                    end
            | None => match nm with Some _ => set_name nm u | None => u end
            end = uid) by (destruct nm, ct; exact Hid).
  rewrite Hkey.
  split; [by rewrite lookup_insert_eq|].
  assert (Hother : ∀ k : string, k ≠ uid →
            <[uid := match ct with
                     | Some _ => set_city ct match nm with
                                             | Some _ => set_name nm u
                                             | None => u
                                             end
                     | None => match nm with
                               | Some _ => set_name nm u
                               | None => u
                               end
                     end]> (users s) !! k = users s !! k)
    by (intros k Hne; by rewrite lookup_insert_ne).
  destruct nm, ct; simpl; repeat split; eauto.
Qed.

Lemma update_user_changes_only_given_fields_witness :
  ∃ u' s',
    UserService.update_user "ali" None (Some "Kasur") store_ali = Ok u' s'
    ∧ users s' !! "ali" = Some u'
    ∧ name u' = name ali
    ∧ city u' = Some "Kasur"
    ∧ (is_Some (name ali) → is_Some (name u'))
    ∧ (is_Some (city ali) → is_Some (city u'))
    ∧ user_id u' = user_id ali
    ∧ created_at u' = created_at ali
    ∧ session_count u' = session_count ali
    ∧ (∀ k, k ≠ "ali" → users s' !! k = users store_ali !! k)
    ∧ sessions s' = sessions store_ali ∧ messages s' = messages store_ali.
Proof.
  apply (update_user_changes_only_given_fields "ali" None (Some "Kasur")
           store_ali ali).
  - exact keyed_store_ali.
  - reflexivity.
Defined.

(** ** Sessions *)

Section SessionServiceFacts.
Import SessionService.

Lemma with_user_id s uid u :
  users s !! uid = Some u →
  {| users := <[uid := u]> (users s);
     sessions := sessions s; messages := messages s |} = s.
Proof. intros H. destruct s; simpl in *. f_equal. by apply insert_id. Qed.

Lemma profile_user_id env uid s : keyed s → user_id (profile env uid s) = uid.
Proof.
  intros [Hk _]. unfold profile.
  destruct (users s !! uid) as [u|] eqn:E; simpl; [exact (Hk _ _ E) | done].
Qed.

Lemma create_session_run env uid osid unm loc s :
  keyed s →
  let sid := match osid with Some i => i | None => uuid4 env end in
  let u := profile env uid s in
  let c := new_ChatSession env sid uid (py_or unm (name u)) (py_or loc (city u)) in
  create_session env uid osid unm loc s
  = match sessions s !! sid with
    | Some _ =>
        Raise (IntegrityError "UNIQUE constraint failed: sessions.id")
              (with_user env uid s)
    | None =>
        Ok c {| users := <[uid := Models.increment_session_count u]> (users s);
                sessions := <[sid := c]> (sessions s);
                messages := messages s |}
    end.
Proof.
  intros Hk sid u c. subst sid u c.
  pose proof (profile_user_id env uid s Hk) as Hid.
  unfold create_session, with_user, profile in *.
  unfold mbind at 1, M_bind at 1, Db.bind at 1.
  rewrite get_or_create_user_plain.
  destruct (users s !! uid) as [u0|] eqn:E; simpl in *.
  - rewrite (with_user_id _ _ _ E). run_db.
    destruct (sessions s !! _) eqn:Es; [done|].
    unfold UserService.increment_session_count, UserService.get_user.
    run_db. rewrite E. simpl. by rewrite Hid.
  - rewrite create_user_fresh by done. run_db.
    destruct (sessions s !! _) eqn:Es; [done|].
    unfold UserService.increment_session_count, UserService.get_user.
    run_db. rewrite lookup_insert_eq. simpl.
    by rewrite insert_insert_eq.
Qed.

End SessionServiceFacts.

(** ** The services keep rows under their keys *)

Lemma keyed_insert_user s u :
  keyed s →
  keyed {| users := <[user_id u := u]> (users s);
           sessions := sessions s; messages := messages s |}.
Proof.
  intros [Hu Hs]. split; simpl; [|done].
  by apply map_Forall_insert_2.
Qed.

Lemma create_user_keyed env uid nm ct s :
  keyed s → keyed (store_of (UserService.create_user env uid nm ct s)).
Proof.
  intros Hk. destruct (users s !! uid) as [u|] eqn:E.
  - by rewrite create_user_taken by (rewrite E; eauto).
  - rewrite create_user_fresh by done. simpl.
    apply (keyed_insert_user s (new_User env uid nm ct) Hk).
Qed.

Lemma update_user_keyed uid nm ct s :
  keyed s → keyed (store_of (UserService.update_user uid nm ct s)).
Proof.
  intros Hk. unfold UserService.update_user. run_db.
  destruct (users s !! uid) as [u|] eqn:E.
  - rewrite (get_user_found _ _ _ E). simpl. by apply keyed_insert_user.
  - by rewrite (get_user_missing _ _ E).
Qed.

Lemma create_session_keyed env uid osid unm loc s :
  keyed s →
  keyed (store_of (SessionService.create_session env uid osid unm loc s)).
Proof.
  intros Hk. rewrite (create_session_run env uid osid unm loc s Hk).
  pose proof (profile_user_id env uid s Hk) as Hid.
  destruct Hk as [Hu Hs].
  destruct (sessions s !! _) eqn:E; simpl.
  - split; simpl; [|done]. by apply map_Forall_insert_2.
  - split; simpl; by apply map_Forall_insert_2.
Qed.

Lemma delete_session_keyed sid s :
  keyed s → keyed (store_of (SessionService.delete_session sid s)).
Proof.
  intros [Hu Hs]. unfold SessionService.delete_session,
    SessionService.get_session. run_db.
  destruct (sessions s !! sid) as [c|]; simpl; [|done].
  split; simpl; [done|]. by apply map_Forall_delete.
Qed.

(** C4.  [create_session], on a store whose rows sit under their keys: when
    the session id is free it returns a session under that id, and the users
    table differs from before only at [user_id]: an absent user has been
    created (one row more) and an existing one is still the only row under
    its id (same number of rows); in both cases the user's session count is
    its former value, 0 for a new user, plus one.  When the session id is
    taken no session is created and the count is not touched, yet the user
    row is already there: it is made before the session. *)
Theorem create_session_user_row_and_count :
  ∀ (env : Env) (uid : string) (osid : option N) (unm loc : option string)
    (s : Store),
    keyed s →
    let sid := match osid with Some i => i | None => uuid4 env end in
    let r := SessionService.create_session env uid osid unm loc s in
    (sessions s !! sid = None →
       ∃ c s', r = Ok c s'
         ∧ id c = sid ∧ owner c = uid
         ∧ sessions s' = <[sid := c]> (sessions s)
         ∧ match users s !! uid with
           | None =>
               users s' = <[uid := Models.increment_session_count
                                     (new_User env uid None None)]> (users s)
               ∧ size (users s') = S (size (users s))
           | Some u =>
               users s' = <[uid := Models.increment_session_count u]> (users s)
               ∧ size (users s') = size (users s)
           end
         ∧ session_count <$> users s' !! uid
           = Some (default 0 (session_count <$> users s !! uid) + 1)%Z)
    ∧ (is_Some (sessions s !! sid) →
       ∃ e s', r = Raise e s'
         ∧ sessions s' = sessions s
         ∧ users s' !! uid
           = Some (default (new_User env uid None None) (users s !! uid))).
Proof.
  intros env uid osid unm loc s Hk sid r. subst r.
  rewrite (create_session_run env uid osid unm loc s Hk). fold sid.
  split.
  - intros Hfree. rewrite Hfree. eexists _, _. split; [reflexivity|]. simpl.
    repeat split.
    + unfold profile. destruct (users s !! uid) as [u|] eqn:E; simpl.
      * split; [done|]. by eapply map_size_insert_Some.
      * split; [done|]. by apply map_size_insert_None.
    + rewrite lookup_insert_eq. unfold profile.
      by destruct (users s !! uid).
  - intros [c0 Htaken]. rewrite Htaken. eexists _, _.
    split; [reflexivity|]. simpl. split; [done|].
    by rewrite lookup_insert_eq.
Qed.

Lemma create_session_user_row_and_count_witness :
  (∃ c s', SessionService.create_session env0 "zara" None None None empty_store
           = Ok c s'
     ∧ id c = 42%N ∧ owner c = "zara"
     ∧ sessions s' = <[42%N := c]> (sessions empty_store)
     ∧ (users s' = <["zara" := Models.increment_session_count
                                 (new_User env0 "zara" None None)]>
                     (users empty_store)
        ∧ size (users s') = S (size (users empty_store)))
     ∧ session_count <$> users s' !! "zara" = Some 1%Z)
  ∧ (∃ c s', SessionService.create_session env0 "ali" (Some 7%N) None None
               store_ali = Ok c s'
     ∧ id c = 7%N ∧ owner c = "ali"
     ∧ sessions s' = <[7%N := c]> (sessions store_ali)
     ∧ (users s' = <["ali" := Models.increment_session_count ali]>
                     (users store_ali)
        ∧ size (users s') = size (users store_ali))
     ∧ session_count <$> users s' !! "ali" = Some 4%Z).
Proof.
  split.
  - apply (create_session_user_row_and_count env0 "zara" None None None
             empty_store keyed_empty_store).
    reflexivity.
  - apply (create_session_user_row_and_count env0 "ali" (Some 7%N) None None
             store_ali keyed_store_ali).
    reflexivity.
Defined.

(** C5, as first stated, fails: an empty string passed as [user_name] is not
    what the session gets, the profile name takes its place. *)
Lemma create_session_empty_name_replaced :
  ∃ c s',
    SessionService.create_session env0 "ali" None (Some "") None store_ali
    = Ok c s'
    ∧ user_name c = Some "Ali"
    ∧ user_name c ≠ Some "".
Proof.
  eexists _, _. split; [vm_compute; reflexivity|]. simpl. split; [done|].
  discriminate.
Qed.

(** C5 (amended).  The created session's display name is the supplied
    [user_name] when that is a non-empty string, and the owning user's profile
    name when it is [None] or empty; its location is the supplied [location]
    when that is a non-empty string, and the owning user's profile city when
    it is [None] or empty. *)
Theorem create_session_name_and_location :
  ∀ (env : Env) (uid : string) (osid : option N) (unm loc : option string)
    (s : Store) (c : ChatSession) (s' : Store),
    keyed s →
    SessionService.create_session env uid osid unm loc s = Ok c s' →
    ∃ u, users s' !! uid = Some u
      ∧ user_name c = (if truthy unm then unm else name u)
      ∧ location c = (if truthy loc then loc else city u)
      ∧ (∀ x, unm = Some x → x ≠ "" → user_name c = Some x)
      ∧ (unm = None ∨ unm = Some "" → user_name c = name u)
      ∧ (∀ x, loc = Some x → x ≠ "" → location c = Some x)
      ∧ (loc = None ∨ loc = Some "" → location c = city u).
Proof.
  intros env uid osid unm loc s c s' Hk Hrun.
  rewrite (create_session_run env uid osid unm loc s Hk) in Hrun.
  destruct (sessions s !! _); [discriminate|].
  injection Hrun as <- <-. simpl.
  eexists. split; [by rewrite lookup_insert_eq|]. simpl.
  unfold py_or.
  assert (Htruthy : ∀ x : string, x ≠ "" → truthy (Some x) = true).
  { intros x Hx. simpl. destruct (String.eqb_spec x ""); [done|done]. }
  repeat split.
  - intros x -> Hx. by rewrite Htruthy.
  - by intros [-> | ->].
  - intros x -> Hx. by rewrite Htruthy.
  - by intros [-> | ->].
Qed.

Lemma create_session_name_and_location_witness :
  ∃ c s',
    SessionService.create_session env0 "ali" None (Some "Ali K.") (Some "")
      store_ali = Ok c s'
    ∧ ∃ u, users s' !! "ali" = Some u
      ∧ user_name c = (if truthy (Some "Ali K.") then Some "Ali K." else name u)
      ∧ location c = (if truthy (Some "") then Some "" else city u)
      ∧ (∀ x, Some "Ali K." = Some x → x ≠ "" → user_name c = Some x)
      ∧ (Some "Ali K." = None ∨ Some "Ali K." = Some "" → user_name c = name u)
      ∧ (∀ x, Some "" = Some x → x ≠ "" → location c = Some x)
      ∧ (Some "" = None ∨ Some "" = Some "" → location c = city u).
Proof.
  eexists _, _. split; [vm_compute; reflexivity|].
  apply (create_session_name_and_location env0 "ali" None (Some "Ali K.")
           (Some "") store_ali).
  - exact keyed_store_ali.
  - vm_compute. reflexivity.
Defined.

(** C8.  On an existing session [delete_session] returns; afterwards
    [get_session] with the same id raises [SessionNotFoundException] and the
    session has no turns left, while the users table, and with it the owner's
    row and session count, the other sessions and their turns are as
    before. *)
Theorem delete_session_keeps_user :
  ∀ (sid : N) (s : Store) (c : ChatSession),
    keyed s →
    sessions s !! sid = Some c →
    ∃ s',
      SessionService.delete_session sid s = Ok tt s'
      ∧ SessionService.get_session sid s'
        = Raise (SessionNotFound
                   (SessionNotFoundException (SessionService.str_UUID sid))) s'
      ∧ status_code (SessionNotFoundException (SessionService.str_UUID sid))
        = 404%Z
      ∧ ContextWindow.session_turns sid s' = []
      ∧ users s' = users s
      ∧ users s' !! owner c = users s !! owner c
      ∧ (∀ k, k ≠ sid → sessions s' !! k = sessions s !! k)
      ∧ (∀ k, k ≠ sid →
           ContextWindow.session_turns k s' = ContextWindow.session_turns k s).
Proof.
  intros sid s c [_ Hk] Hlk.
  pose proof (Hk _ _ Hlk) as Hid; simpl in Hid.
  unfold SessionService.delete_session, SessionService.get_session.
  run_db. rewrite Hlk. simpl. rewrite Hid.
  eexists. split; [reflexivity|]. simpl.
  rewrite lookup_delete_eq. repeat split.
  - unfold ContextWindow.session_turns. simpl.
    induction (messages s) as [|m l IH]; [done|].
    rewrite filter_cons. destruct (decide (msg_session m ≠ sid)) as [Hne|He].
    + rewrite filter_cons_False by done. exact IH.
    + exact IH.
  - intros k Hne. by rewrite lookup_delete_ne.
  - intros k Hne. unfold ContextWindow.session_turns. simpl.
    induction (messages s) as [|m l IH]; [done|].
    rewrite !filter_cons.
    destruct (decide (msg_session m ≠ sid)) as [Hm|Hm].
    + rewrite filter_cons. by rewrite IH.
    + destruct (decide (msg_session m = k)) as [Hmk|Hmk].
      * exfalso. apply Hm. congruence.
      * exact IH.
Qed.

Lemma keyed_store_chat : keyed store_chat.
Proof. split; simpl; by apply map_Forall_singleton. Qed.

Lemma delete_session_keeps_user_witness :
  ∃ s',
    SessionService.delete_session 7 store_chat = Ok tt s'
    ∧ SessionService.get_session 7 s'
      = Raise (SessionNotFound
                 (SessionNotFoundException (SessionService.str_UUID 7))) s'
    ∧ status_code (SessionNotFoundException (SessionService.str_UUID 7))
      = 404%Z
    ∧ ContextWindow.session_turns 7 s' = []
    ∧ users s' = users store_chat
    ∧ users s' !! "ali" = users store_chat !! "ali"
    ∧ (∀ k, k ≠ 7%N → sessions s' !! k = sessions store_chat !! k)
    ∧ (∀ k, k ≠ 7%N →
         ContextWindow.session_turns k s'
         = ContextWindow.session_turns k store_chat).
Proof.
  apply (delete_session_keeps_user 7 store_chat
           (new_ChatSession env0 7 "ali" (Some "Ali") None)).
  - exact keyed_store_chat.
  - reflexivity.
Defined.

(** ** The context window *)

Section ContextWindowFacts.
Import ContextWindow.

Lemma most_recent_drop {A} (w : nat) (l : list A) :
  most_recent w l = drop (length l - w) l.
Proof.
  unfold most_recent. rewrite firstn_rev. by rewrite rev_involutive.
Qed.

Lemma most_recent_length {A} (w : nat) (l : list A) :
  length (most_recent w l) = Nat.min (length l) w.
Proof. rewrite most_recent_drop, length_drop. lia. Qed.

End ContextWindowFacts.

(** C7.  For a session with N persisted turns the context is a list of prior
    turns followed by the new user message; the prior turns are min(N, W) in
    number and are the last that many of the session's turns, in their stored
    (chronological) order, hence all of them when N is at most W; W is the
    configured window size, 10 by default. *)
Theorem build_context_window :
  ∀ (cfg : Config.Settings) (sid : N) (new_message : string) (s : Store),
    let turns := ContextWindow.session_turns sid s in
    let W := Config.context_window_size cfg in
    ∃ prior,
      ContextWindow.build_context cfg sid new_message s
      = prior ++ [ {| msg_session := sid; role := RUser;
                      content := new_message |} ]
      ∧ length prior = Nat.min (length turns) W
      ∧ prior = drop (length turns - W) turns
      ∧ turns = take (length turns - W) turns ++ prior
      ∧ ((length turns <= W)%nat → prior = turns)
      ∧ Config.context_window_size Config.default_settings = 10.
Proof.
  intros cfg sid new_message s turns W.
  exists (ContextWindow.most_recent W turns).
  split; [reflexivity|].
  split; [apply most_recent_length|].
  split; [apply most_recent_drop|].
  split; [by rewrite most_recent_drop, take_drop|].
  split; [|reflexivity].
  intros Hle. rewrite most_recent_drop.
  replace (length turns - W) with 0 by lia. done.
Qed.

Lemma build_context_window_witness :
  ∃ prior,
    ContextWindow.build_context Config.default_settings 7 "Deals?" store_chat
    = prior ++ [ {| msg_session := 7; role := RUser; content := "Deals?" |} ]
    ∧ length prior = 2
    ∧ prior = ContextWindow.session_turns 7 store_chat.
Proof.
  destruct (build_context_window Config.default_settings 7 "Deals?" store_chat)
    as (prior & Hctx & Hlen & _ & _ & Hall & _).
  exists prior. split; [exact Hctx|]. split; [exact Hlen|].
  apply Hall. vm_compute. lia.
Defined.

Example build_context_keeps_newest_two :
  map content
    (ContextWindow.build_context
       {| Config.context_window_size := 2; Config.max_message_length := 500;
          Config.rate_limit_per_minute := 20 |}
       7 "d"
       {| users := ∅; sessions := ∅;
          messages := [ {| msg_session := 7; role := RUser; content := "a" |};
                        {| msg_session := 9; role := RUser; content := "x" |};
                        {| msg_session := 7; role := RAssistant; content := "b" |};
                        {| msg_session := 7; role := RUser; content := "c" |} ] |})
  = ["b"; "c"; "d"].
Proof. reflexivity. Qed.

(** ** The logging context *)

Section LoggingFacts.
Import Logging.

Lemma lookup_put_back (o : option (option string)) (v k : string)
    (m : Context) :
  match o with Some x => <[v := x]> m | None => delete v m end !! k
  = if decide (v = k) then o else m !! k.
Proof.
  destruct o; case_decide; subst.
  - by rewrite lookup_insert_eq.
  - by rewrite lookup_insert_ne.
  - by rewrite lookup_delete_eq.
  - by rewrite lookup_delete_ne.
Qed.

(** Leaving after entering: no token is refused, a variable that
    [__enter__] set is bound as it was before entering, and any other
    variable is bound as it was when the block was left. *)
Lemma enter_exit_lookup (rid sid uid : option string) (ctx ctx2 : Context) :
  let e := __enter__ (__init__ rid sid uid) ctx in
  let x := __exit__ e.1 ctx2 in
  x.1.1 = None
  ∧ ∀ k, x.2 !! k = if set_by_enter rid sid uid k then ctx !! k else ctx2 !! k.
Proof.
  intros e x. subst e x.
  unfold __enter__, __init__, __exit__, set_if, set_by_enter, reset, set.
  cbn [_tokens request_id session_id user_id].
  destruct (truthy rid), (truthy sid), (truthy uid); cbn.
  all: split; [reflexivity|].
  all: intros k.
  all: unfold request_id_var, session_id_var, user_id_var.
  all: rewrite ?lookup_put_back.
  all: rewrite ?lookup_insert_ne by done.
  all: destruct (String.eqb_spec k "request_id");
    destruct (String.eqb_spec k "session_id");
    destruct (String.eqb_spec k "user_id");
    repeat case_decide; subst; simpl; congruence.
Qed.

(** Entering leaves every variable it does not set as it was. *)
Lemma enter_lookup_other (rid sid uid : option string) (ctx : Context) k :
  set_by_enter rid sid uid k = false →
  (__enter__ (__init__ rid sid uid) ctx).2 !! k = ctx !! k.
Proof.
  unfold __enter__, __init__, set_if, set_by_enter, set.
  cbn [_tokens request_id session_id user_id].
  unfold request_id_var, session_id_var, user_id_var.
  destruct (truthy rid), (truthy sid), (truthy uid); cbn.
  all: destruct (String.eqb_spec k "request_id");
    destruct (String.eqb_spec k "session_id");
    destruct (String.eqb_spec k "user_id"); simpl; try discriminate.
  all: intros _; by rewrite ?lookup_insert_ne by done.
Qed.

End LoggingFacts.

(** C9.  Entering a [LogContext] and leaving it again gives back the context
    as it was, whatever the three variables held and whatever arguments were
    passed.  Around a body, which may end normally or by an exception and may
    itself set the variables that [__enter__] set, each of [request_id],
    [session_id] and [user_id] is bound after the block, and read by [get],
    as before it, provided the body leaves alone those of the three that
    [__enter__] did not set; the way the body ended is passed on unchanged. *)
Theorem LogContext_restores_variables :
  ∀ (A : Type) (rid sid uid : option string)
    (body : Logging.Context → Logging.outcome A * Logging.Context)
    (ctx : Logging.Context),
    let entered := Logging.__enter__ (Logging.__init__ rid sid uid) ctx in
    (Logging.__exit__ entered.1 entered.2).2 = ctx
    ∧ ((∀ c k, k ∈ [Logging.request_id_var; Logging.session_id_var;
                     Logging.user_id_var] →
               set_by_enter rid sid uid k = false →
               (body c).2 !! k = c !! k) →
       let r := Logging.with_LogContext rid sid uid body ctx in
       r.1 = (body entered.2).1
       ∧ ∀ k, k ∈ [Logging.request_id_var; Logging.session_id_var;
                    Logging.user_id_var] →
              r.2 !! k = ctx !! k ∧ Logging.get k r.2 = Logging.get k ctx).
Proof.
  intros A rid sid uid body ctx entered. split.
  - apply map_eq. intros k.
    destruct (enter_exit_lookup rid sid uid ctx entered.2) as [_ H].
    fold entered in H. rewrite H.
    destruct (set_by_enter rid sid uid k) eqn:E; [done|].
    by apply enter_lookup_other.
  - intros Hbody r. subst r entered. unfold Logging.with_LogContext.
    pose proof (enter_lookup_other rid sid uid ctx) as Hent_lk.
    pose proof (enter_exit_lookup rid sid uid ctx) as Hexit. cbv zeta in Hexit.
    destruct (Logging.__enter__ (Logging.__init__ rid sid uid) ctx)
      as [self ctx1].
    simpl in *.
    destruct (body ctx1) as [o ctx2] eqn:Hb.
    destruct (Hexit ctx2) as [Hnone Hlk].
    destruct (Logging.__exit__ self ctx2) as [[err self'] ctx3].
    simpl in *. rewrite Hnone. simpl. split; [done|].
    intros k Hin.
    assert (Hk : ctx3 !! k = ctx !! k).
    { rewrite Hlk. destruct (set_by_enter rid sid uid k) eqn:E; [done|].
      pose proof (Hbody ctx1 k Hin E) as H2. rewrite Hb in H2. simpl in H2.
      rewrite H2. by apply Hent_lk. }
    split; [exact Hk|]. unfold Logging.get. by rewrite Hk.
Qed.

Lemma LogContext_restores_variables_witness :
  (Logging.with_LogContext (Some "r-1") (Some "s-7") None failing_body
     outer_context).1
  = Logging.Raised (Exception "boom")
  ∧ ∀ k, k ∈ [Logging.request_id_var; Logging.session_id_var;
               Logging.user_id_var] →
         (Logging.with_LogContext (Some "r-1") (Some "s-7") None failing_body
            outer_context).2 !! k
         = outer_context !! k
         ∧ Logging.get k
             (Logging.with_LogContext (Some "r-1") (Some "s-7") None
                failing_body outer_context).2
           = Logging.get k outer_context.
Proof.
  destruct (LogContext_restores_variables unit (Some "r-1") (Some "s-7") None
              failing_body outer_context) as [_ H].
  apply H. intros c k Hin Hset.
  apply list_elem_of_In in Hin. simpl in Hin.
  destruct Hin as [<-|[<-|[<-|[]]]].
  - discriminate Hset.
  - discriminate Hset.
  - unfold failing_body. simpl. by rewrite lookup_insert_ne.
Defined.

(** ** Startup *)

Section EngineFacts.
Import Engine.
Local Open Scope nat_scope.

(** Every call fails: the loop makes one call more than it has retries,
    pauses between the calls and ends with [RetryError]. *)
Lemma retry_connect_exhausted n : ∀ w,
  (∀ k, k ≤ n → db_up w (attempts w + k) = false) →
  retry_loop n 2 connect w
  = (inl (RetryError "RetryError[OperationalError]"),
     {| migration := migration w; db_up := db_up w;
        attempts := attempts w + S n;
        trace := trace w ++ failed_rounds n ++ [Connect false] |}).
Proof.
  induction n as [|n IH]; intros w Hdown.
  - simpl. unfold connect.
    pose proof (Hdown 0 (le_n 0)) as H0. rewrite Nat.add_0_r in H0.
    rewrite H0. simpl. do 2 f_equal. lia.
  - simpl. unfold connect at 1.
    pose proof (Hdown 0 (Nat.le_0_l _)) as H0. rewrite Nat.add_0_r in H0.
    rewrite H0. simpl. rewrite IH.
    + simpl. f_equal. f_equal; [lia|].
      fold (failed_rounds n). by rewrite <- !app_assoc.
    + intros k Hk. simpl. rewrite <- Nat.add_succ_r.
      apply Hdown. lia.
Qed.

(** The first call that succeeds ends the loop. *)
Lemma retry_connect_reached k : ∀ n w,
  k ≤ n →
  (∀ j, j < k → db_up w (attempts w + j) = false) →
  db_up w (attempts w + k) = true →
  retry_loop n 2 connect w
  = (inr tt,
     {| migration := migration w; db_up := db_up w;
        attempts := attempts w + S k;
        trace := trace w ++ failed_rounds k ++ [Connect true] |}).
Proof.
  induction k as [|k IH]; intros n w Hle Hdown Hup.
  - rewrite Nat.add_0_r in Hup.
    destruct n; simpl; unfold connect; rewrite Hup; simpl;
      do 2 f_equal; lia.
  - destruct n as [|n]; [lia|].
    simpl. unfold connect at 1.
    pose proof (Hdown 0 (Nat.lt_0_succ _)) as H0. rewrite Nat.add_0_r in H0.
    rewrite H0. simpl. rewrite (IH n).
    + simpl. f_equal. f_equal; [lia|].
      fold (failed_rounds k). by rewrite <- !app_assoc.
    + lia.
    + intros j Hj. simpl. rewrite <- Nat.add_succ_r.
      apply Hdown. lia.
    + simpl. by rewrite <- Nat.add_succ_r.
Qed.

(** A failing migration aborts startup before any connection attempt. *)
Lemma init_db_migration_failure w e :
  migration w = Some e → is_Exception e = true →
  init_db w
  = (inl (RuntimeError ("Database unavailable: " +:+ str e)), log Migrate w).
Proof.
  intros Hm He. unfold init_db, upgrade. rewrite Hm. by rewrite He.
Qed.

End EngineFacts.

(** C3.  When the five connection attempts that follow all fail,
    [verify_connection] makes exactly those five, with a pause of 2 seconds
    between consecutive ones and none after the last, and ends with
    [RetryError]; [init_db], once the migration step is through, turns that
    into [RuntimeError] and startup is aborted.  When the attempt number
    [k + 1], for [k < 5], is the first to succeed, exactly [k + 1] attempts
    are made, [k] pauses, and [init_db] returns so that startup goes on. *)
Theorem startup_connection_attempts :
  ∀ w : Engine.World,
    ((∀ k, (k < 5)%nat → Engine.db_up w (Engine.attempts w + k) = false) →
       (∃ w', Engine.verify_connection w
              = (inl (RetryError "RetryError[OperationalError]"), w')
          ∧ Engine.attempts w' = (Engine.attempts w + 5)%nat
          ∧ Engine.trace w'
            = Engine.trace w
              ++ [Engine.Connect false; Engine.Sleep 2;
                  Engine.Connect false; Engine.Sleep 2;
                  Engine.Connect false; Engine.Sleep 2;
                  Engine.Connect false; Engine.Sleep 2;
                  Engine.Connect false])
       ∧ (Engine.migration w = None →
          ∃ w',
            Engine.init_db w
            = (inl (RuntimeError
                      "Database unavailable: RetryError[OperationalError]"), w')
            ∧ Engine.lifespan_startup w
              = (Engine.Aborted
                   (RuntimeError
                      "Database unavailable: RetryError[OperationalError]"), w')
            ∧ Engine.attempts w' = (Engine.attempts w + 5)%nat
            ∧ Engine.trace w'
              = Engine.trace w
                ++ [Engine.Migrate;
                    Engine.Connect false; Engine.Sleep 2;
                    Engine.Connect false; Engine.Sleep 2;
                    Engine.Connect false; Engine.Sleep 2;
                    Engine.Connect false; Engine.Sleep 2;
                    Engine.Connect false]))
    ∧ (∀ k, (k < 5)%nat →
         (∀ j, (j < k)%nat → Engine.db_up w (Engine.attempts w + j) = false) →
         Engine.db_up w (Engine.attempts w + k) = true →
         (∃ w', Engine.verify_connection w = (inr tt, w')
            ∧ Engine.attempts w' = (Engine.attempts w + S k)%nat
            ∧ Engine.trace w'
              = Engine.trace w ++ Engine.failed_rounds k
                ++ [Engine.Connect true])
         ∧ (Engine.migration w = None →
            ∃ w', Engine.init_db w = (inr tt, w')
              ∧ Engine.lifespan_startup w = (Engine.Serving, w')
              ∧ Engine.attempts w' = (Engine.attempts w + S k)%nat
              ∧ Engine.trace w'
                = Engine.trace w ++ [Engine.Migrate]
                  ++ Engine.failed_rounds k ++ [Engine.Connect true])).
Proof.
  intros w. split.
  - intros Hdown. split.
    + eexists. split; [|split].
      * unfold Engine.verify_connection, Engine.retry. simpl pred.
        apply retry_connect_exhausted. intros k Hk. apply Hdown. lia.
      * reflexivity.
      * reflexivity.
    + intros Hm.
      pose proof (retry_connect_exhausted 4 (Engine.log Engine.Migrate w))
        as Hv.
      unfold Engine.log in Hv.
      cbn [Engine.attempts Engine.db_up Engine.trace Engine.migration] in Hv.
      specialize (Hv ltac:(intros k Hk; apply Hdown; lia)).
      rewrite Hm in Hv.
      eexists. split.
      { unfold Engine.init_db, Engine.upgrade, Engine.log. rewrite Hm.
        unfold Engine.verify_connection, Engine.retry. simpl pred.
        rewrite Hv. reflexivity. }
      split.
      { unfold Engine.lifespan_startup, Engine.init_db, Engine.upgrade,
          Engine.log.
        rewrite Hm.
        unfold Engine.verify_connection, Engine.retry. simpl pred.
        rewrite Hv. reflexivity. }
      simpl. split; [reflexivity|]. by rewrite <- app_assoc.
  - intros k Hk Hdown Hup. split.
    + eexists. split; [|split].
      * unfold Engine.verify_connection, Engine.retry. simpl pred.
        apply (retry_connect_reached k); [lia|done|done].
      * reflexivity.
      * reflexivity.
    + intros Hm.
      pose proof (retry_connect_reached k 4 (Engine.log Engine.Migrate w))
        as Hv.
      unfold Engine.log in Hv.
      cbn [Engine.attempts Engine.db_up Engine.trace Engine.migration] in Hv.
      specialize (Hv ltac:(lia) Hdown Hup).
      rewrite Hm in Hv.
      eexists. split.
      { unfold Engine.init_db, Engine.upgrade, Engine.log. rewrite Hm.
        unfold Engine.verify_connection, Engine.retry. simpl pred.
        rewrite Hv. reflexivity. }
      split.
      { unfold Engine.lifespan_startup, Engine.init_db, Engine.upgrade,
          Engine.log.
        rewrite Hm.
        unfold Engine.verify_connection, Engine.retry. simpl pred.
        rewrite Hv. reflexivity. }
      simpl. split; [reflexivity|]. by rewrite <- app_assoc.
Qed.

Lemma startup_connection_attempts_witness :
  (∃ w',
     Engine.init_db db_down
     = (inl (RuntimeError
               "Database unavailable: RetryError[OperationalError]"), w')
     ∧ Engine.lifespan_startup db_down
       = (Engine.Aborted
            (RuntimeError
               "Database unavailable: RetryError[OperationalError]"), w')
     ∧ Engine.attempts w' = 5%nat
     ∧ Engine.trace w'
       = [Engine.Migrate;
          Engine.Connect false; Engine.Sleep 2;
          Engine.Connect false; Engine.Sleep 2;
          Engine.Connect false; Engine.Sleep 2;
          Engine.Connect false; Engine.Sleep 2;
          Engine.Connect false])
  ∧ (∃ w',
       Engine.init_db db_late = (inr tt, w')
       ∧ Engine.lifespan_startup db_late = (Engine.Serving, w')
       ∧ Engine.attempts w' = 3%nat
       ∧ Engine.trace w'
         = [Engine.Migrate;
            Engine.Connect false; Engine.Sleep 2;
            Engine.Connect false; Engine.Sleep 2;
            Engine.Connect true]).
Proof.
  split.
  - apply (startup_connection_attempts db_down).
    + intros k Hk. reflexivity.
    + reflexivity.
  - destruct (startup_connection_attempts db_late) as [_ Hlate].
    apply (Hlate 2%nat).
    + lia.
    + intros j Hj. destruct j as [|[|j]]; [reflexivity|reflexivity|lia].
    + reflexivity.
    + reflexivity.
Defined.

(** ** The event stream *)

Section ChatFacts.
Import Chat.

Lemma stream_tokens_yielded g :
  stream_tokens g = (map token (yielded g), raised g).
Proof. induction g as [t g IH| |e]; simpl; [by rewrite IH|done|done]. Qed.

Lemma event_generator_run sid g :
  event_generator sid g
  = match raised g with
    | None =>
        (session_created sid :: map token (yielded g) ++ [done sid], None)
    | Some e =>
        if is_Exception e
        then (session_created sid :: map token (yielded g) ++ [error (str e)],
              None)
        else (session_created sid :: map token (yielded g), Some e)
    end.
Proof.
  unfold event_generator. rewrite stream_tokens_yielded.
  destruct (raised g) as [e|]; [|done].
  by destruct (is_Exception e).
Qed.

Lemma count_tokens (nm : string) (ts : list string) :
  nm ≠ "token" → count (has_event nm) (map token ts) = 0%nat.
Proof.
  intros Hnm. unfold count. induction ts as [|t ts IH]; [done|].
  cbn [map List.filter]. unfold has_event at 1, token at 1. cbn [event].
  destruct (String.eqb_spec "token" nm) as [He|_]; [congruence|exact IH].
Qed.

Lemma count_terminal_tokens (ts : list string) :
  count is_terminal (map token ts) = 0%nat.
Proof. unfold count. induction ts as [|t ts IH]; [done|exact IH]. Qed.

Lemma count_app (p : SSE → bool) (l1 l2 : list SSE) :
  count p (l1 ++ l2) = (count p l1 + count p l2)%nat.
Proof. unfold count. by rewrite List.filter_app, length_app. Qed.

Lemma accepts_tokens (ts : list string) (tl : list SSE) :
  accepts STREAMING (map token ts ++ tl) = accepts STREAMING tl.
Proof. induction ts as [|t ts IH]; [done|]. exact IH. Qed.

(** In a list of tokens closed by at most one further event, only the last
    position can hold a terminal event. *)
Lemma terminal_is_last (ts : list string) (tl : list SSE) i ev :
  (length tl <= 1)%nat →
  (map token ts ++ tl) !! i = Some ev →
  is_terminal ev = true →
  S i = length (map token ts ++ tl).
Proof.
  intros Hlen Hlk Hterm.
  destruct (decide (i < length (map token ts))%nat) as [Hlt|Hge].
  - rewrite lookup_app_l in Hlk by done.
    rewrite list_lookup_fmap in Hlk.
    destruct (ts !! i) as [t|]; simpl in Hlk; [|done].
    injection Hlk as <-. discriminate Hterm.
  - rewrite lookup_app_r in Hlk by lia.
    apply lookup_lt_Some in Hlk. rewrite length_app. lia.
Qed.

End ChatFacts.

(** C1.  The events of a request are [session_created], then one [token]
    event per token the chat service yielded, in the order yielded, then at
    most one terminal event: [done] when the service ran to its end, [error]
    when it raised an [Exception], none when something else left the
    generator.  There is exactly one [session_created], at most one terminal
    event, a terminal event is the last event, and the list is accepted by
    the phase walk INIT, STREAMING, TERMINATED. *)
Theorem event_generator_order :
  ∀ (sid : N) (handle_chat : Chat.agen),
    let evs := (Chat.event_generator sid handle_chat).1 in
    ∃ terminal,
      evs = Chat.session_created sid
            :: map Chat.token (Chat.yielded handle_chat) ++ terminal
      ∧ terminal
        = match Chat.raised handle_chat with
          | None => [Chat.done sid]
          | Some e => if is_Exception e then [Chat.error (str e)] else []
          end
      ∧ Chat.count (Chat.has_event "session_created") evs = 1%nat
      ∧ Chat.count Chat.is_terminal evs = length terminal
      ∧ (length terminal <= 1)%nat
      ∧ (∀ i ev, evs !! i = Some ev → Chat.is_terminal ev = true →
                 S i = length evs)
      ∧ Chat.accepts Chat.INIT evs = true.
Proof.
  intros sid g evs. subst evs. rewrite event_generator_run.
  exists (match Chat.raised g with
          | None => [Chat.done sid]
          | Some e => if is_Exception e then [Chat.error (str e)] else []
          end).
  assert (Hlen : (length match Chat.raised g with
                         | None => [Chat.done sid]
                         | Some e => if is_Exception e
                                     then [Chat.error (str e)] else []
                         end <= 1)%nat)
    by (destruct (Chat.raised g) as [e|]; [destruct (is_Exception e)|];
        simpl; lia).
  assert (Hevs :
    (match Chat.raised g with
     | None => (Chat.session_created sid
                :: map Chat.token (Chat.yielded g) ++ [Chat.done sid], None)
     | Some e =>
         if is_Exception e
         then (Chat.session_created sid
               :: map Chat.token (Chat.yielded g) ++ [Chat.error (str e)], None)
         else (Chat.session_created sid :: map Chat.token (Chat.yielded g),
               Some e)
     end).1
    = Chat.session_created sid
      :: map Chat.token (Chat.yielded g)
         ++ match Chat.raised g with
            | None => [Chat.done sid]
            | Some e => if is_Exception e then [Chat.error (str e)] else []
            end).
  { destruct (Chat.raised g) as [e|]; [destruct (is_Exception e)|]; simpl;
      by rewrite ?app_nil_r. }
  rewrite Hevs. clear Hevs.
  set (terminal := match Chat.raised g with
                   | None => [Chat.done sid]
                   | Some e => if is_Exception e
                               then [Chat.error (str e)] else []
                   end) in *.
  split; [reflexivity|]. split; [reflexivity|].
  assert (Hsc : Chat.count (Chat.has_event "session_created") terminal = 0%nat)
    by (subst terminal; destruct (Chat.raised g) as [e|];
        [destruct (is_Exception e)|]; reflexivity).
  assert (Hterm : Chat.count Chat.is_terminal terminal = length terminal)
    by (subst terminal; destruct (Chat.raised g) as [e|];
        [destruct (is_Exception e)|]; reflexivity).
  assert (Hacc : Chat.accepts Chat.STREAMING terminal = true)
    by (subst terminal; destruct (Chat.raised g) as [e|];
        [destruct (is_Exception e)|]; reflexivity).
  split; [|split; [|split; [exact Hlen|split]]].
  - change (Chat.count (Chat.has_event "session_created")
              ([Chat.session_created sid]
               ++ map Chat.token (Chat.yielded g) ++ terminal) = 1%nat).
    rewrite !count_app, count_tokens by done. by rewrite Hsc.
  - change (Chat.count Chat.is_terminal
              ([Chat.session_created sid]
               ++ map Chat.token (Chat.yielded g) ++ terminal)
            = length terminal).
    rewrite !count_app, count_terminal_tokens. by rewrite Hterm.
  - intros [|i] ev Hlk Hev.
    + injection Hlk as <-. discriminate Hev.
    + simpl in Hlk. simpl. f_equal.
      by eapply terminal_is_last.
  - simpl. by rewrite accepts_tokens.
Qed.

Lemma event_generator_order_witness :
  S 3 = length (Chat.event_generator 7 failing_chat).1.
Proof.
  destruct (event_generator_order 7 failing_chat)
    as (terminal & _ & _ & _ & _ & _ & Hlast & _).
  apply (Hlast 3%nat (Chat.error "Groq API timeout")); reflexivity.
Defined.

(** C2.  When the chat service raises an [Exception] [e], the generator
    yields, after what it had yielded so far, one [error] event whose data is
    the message [str e], and ends without an exception of its own; that
    [error] event is the only one in the stream. *)
Theorem event_generator_reports_exception :
  ∀ (sid : N) (handle_chat : Chat.agen) (e : exn),
    Chat.raised handle_chat = Some e →
    is_Exception e = true →
    Chat.event_generator sid handle_chat
    = (Chat.session_created sid
       :: map Chat.token (Chat.yielded handle_chat) ++ [Chat.error (str e)],
       None)
    ∧ Chat.data (Chat.error (str e)) = [("error", str e)]
    ∧ Chat.count (Chat.has_event "error")
        (Chat.event_generator sid handle_chat).1 = 1%nat
    ∧ Chat.count (Chat.has_event "done")
        (Chat.event_generator sid handle_chat).1 = 0%nat.
Proof.
  intros sid g e Hraised Hexc.
  rewrite event_generator_run, Hraised, Hexc.
  split; [reflexivity|]. split; [reflexivity|]. simpl.
  split.
  - change (Chat.count (Chat.has_event "error")
              ([Chat.session_created sid]
               ++ map Chat.token (Chat.yielded g) ++ [Chat.error (str e)])
            = 1%nat).
    by rewrite !count_app, count_tokens.
  - change (Chat.count (Chat.has_event "done")
              ([Chat.session_created sid]
               ++ map Chat.token (Chat.yielded g) ++ [Chat.error (str e)])
            = 0%nat).
    by rewrite !count_app, count_tokens.
Qed.

Lemma event_generator_reports_exception_witness :
  Chat.event_generator 7 failing_chat
  = ([Chat.session_created 7; Chat.token "Hel"; Chat.token "lo";
      Chat.error "Groq API timeout"], None)
  ∧ Chat.data (Chat.error "Groq API timeout") = [("error", "Groq API timeout")]
  ∧ Chat.count (Chat.has_event "error")
      (Chat.event_generator 7 failing_chat).1 = 1%nat
  ∧ Chat.count (Chat.has_event "done")
      (Chat.event_generator 7 failing_chat).1 = 0%nat.
Proof.
  apply (event_generator_reports_exception 7 failing_chat
           (Exception "Groq API timeout")); reflexivity.
Defined.

(** What is not an [Exception], a cancellation for one, leaves the generator
    as it came, and no terminal event is yielded. *)
Lemma event_generator_lets_cancellation_through sid g msg :
  Chat.raised g = Some (BaseOnly msg) →
  Chat.event_generator sid g
  = (Chat.session_created sid :: map Chat.token (Chat.yielded g),
     Some (BaseOnly msg)).
Proof. intros H. by rewrite event_generator_run, H. Qed.

(** * Further properties *)

(** ** Sorting newest first *)

Section SortFacts.
Context {A : Type} (key : A → Z).

Local Abbreviation not_older := (not_older key).

Lemma insert_desc_perm (x : A) (l : list A) :
  insert_desc key x l ≡ₚ x :: l.
Proof.
  induction l as [|y l IH]; [done|].
  simpl. destruct (key y <=? key x)%Z; [done|].
  rewrite IH. apply Permutation_swap.
Qed.

Lemma sort_desc_perm (l : list A) : sort_desc key l ≡ₚ l.
Proof.
  induction l as [|x l IH]; [done|].
  simpl. rewrite insert_desc_perm. by rewrite IH.
Qed.

Lemma insert_desc_hd (x a : A) (l : list A) :
  not_older a x → HdRel not_older a l → HdRel not_older a (insert_desc key x l).
Proof.
  intros Hax Hl. destruct l as [|y l]; simpl; [by constructor|].
  destruct (key y <=? key x)%Z; constructor; [done|].
  by inversion Hl.
Qed.

Lemma insert_desc_sorted (x : A) (l : list A) :
  Sorted not_older l → Sorted not_older (insert_desc key x l).
Proof.
  induction 1 as [|y l Hs IH Hhd]; simpl.
  - repeat constructor.
  - destruct (Z.leb_spec (key y) (key x)) as [Hle|Hgt].
    + constructor; [by constructor|]. by constructor.
    + constructor; [exact IH|].
      apply insert_desc_hd; [|done]. unfold not_older. lia.
Qed.

Lemma sort_desc_sorted (l : list A) : Sorted not_older (sort_desc key l).
Proof.
  induction l as [|x l IH]; simpl; [constructor|].
  by apply insert_desc_sorted.
Qed.

Lemma sort_desc_strongly_sorted (l : list A) :
  StronglySorted not_older (sort_desc key l).
Proof.
  apply Sorted_StronglySorted; [|apply sort_desc_sorted].
  intros a b c Hab Hbc. unfold not_older in *. lia.
Qed.

Lemma sort_desc_length (l : list A) : length (sort_desc key l) = length l.
Proof. by rewrite sort_desc_perm. Qed.

Lemma sort_desc_Forall (P : A → Prop) (l : list A) :
  Forall P l → Forall P (sort_desc key l).
Proof. by rewrite sort_desc_perm. Qed.

End SortFacts.

(** ** More on the user service *)

(** X1.  Every operation that needs the user to exist raises
    [UserNotFoundException], status 404, when no row has the id, and leaves
    the store as it found it. *)
Theorem missing_user_is_not_found :
  ∀ (uid : string) (nm ct : option string) (s : Store),
    users s !! uid = None →
    let e := UserNotFound (UserNotFoundException uid) in
    UserService.get_user uid s = Raise e s
    ∧ UserService.update_user uid nm ct s = Raise e s
    ∧ UserService.delete_user uid s = Raise e s
    ∧ UserService.increment_session_count uid s = Raise e s
    ∧ status_code (UserNotFoundException uid) = 404%Z
    ∧ code (UserNotFoundException uid) = "USER_NOT_FOUND".
Proof.
  intros uid nm ct s Hnone e. subst e.
  pose proof (get_user_missing uid s Hnone) as Hget.
  unfold UserService.update_user, UserService.delete_user,
    UserService.increment_session_count.
  unfold mbind, M_bind, Db.bind. rewrite Hget. done.
Qed.

Lemma missing_user_is_not_found_witness :
  UserService.get_user "zara" store_ali
  = Raise (UserNotFound (UserNotFoundException "zara")) store_ali
  ∧ UserService.update_user "zara" (Some "Zara") None store_ali
    = Raise (UserNotFound (UserNotFoundException "zara")) store_ali
  ∧ UserService.delete_user "zara" store_ali
    = Raise (UserNotFound (UserNotFoundException "zara")) store_ali
  ∧ UserService.increment_session_count "zara" store_ali
    = Raise (UserNotFound (UserNotFoundException "zara")) store_ali
  ∧ status_code (UserNotFoundException "zara") = 404%Z
  ∧ code (UserNotFoundException "zara") = "USER_NOT_FOUND".
Proof.
  apply (missing_user_is_not_found "zara" (Some "Zara") None store_ali).
  reflexivity.
Defined.

Section UserServiceRuns.
Import UserService.

Lemma patched_user_id nm ct u : user_id (patched nm ct u) = user_id u.
Proof. by destruct nm, ct. Qed.

Lemma patched_twice nm ct u : patched nm ct (patched nm ct u) = patched nm ct u.
Proof. by destruct nm, ct. Qed.

Lemma update_user_run uid nm ct s u :
  keyed s →
  users s !! uid = Some u →
  update_user uid nm ct s = Ok (patched nm ct u) (with_row uid (patched nm ct u) s).
Proof.
  intros [Hk _] E. pose proof (Hk _ _ E) as Hid. simpl in Hid.
  unfold update_user. run_db. rewrite (get_user_found _ _ _ E).
  fold (patched nm ct u). by rewrite patched_user_id, Hid.
Qed.

Lemma with_row_keyed uid u s :
  keyed s → user_id u = uid → keyed (with_row uid u s).
Proof.
  intros [Hu Hs] Hid. split; simpl; [|done]. by apply map_Forall_insert_2.
Qed.

Lemma with_row_same uid u s : users s !! uid = Some u → with_row uid u s = s.
Proof.
  intros E. unfold with_row. destruct s; simpl in *. f_equal.
  by apply insert_id.
Qed.

Lemma with_row_twice uid u v s :
  with_row uid u (with_row uid v s) = with_row uid u s.
Proof. unfold with_row. simpl. f_equal. apply insert_insert_eq. Qed.

Lemma get_or_create_user_existing env uid nm ct s u :
  keyed s →
  users s !! uid = Some u →
  get_or_create_user env uid nm ct s
  = Ok (patched nm ct u) (with_row uid (patched nm ct u) s).
Proof.
  intros [Hk _] E. pose proof (Hk _ _ E) as Hid. simpl in Hid.
  unfold get_or_create_user. run_db. rewrite E.
  assert (Hsame : ∀ v : User, v = u →
            Ok v s = Ok v {| users := <[user_id v := v]> (users s);
                             sessions := sessions s; messages := messages s |}).
  { intros v ->. f_equal. rewrite Hid. symmetry.
    by apply (with_row_same uid u s). }
  unfold with_row.
  destruct u as [i n c t k]. simpl in *. subst i.
  destruct nm as [x|], ct as [y|]; simpl;
    repeat (case_bool_decide; simpl); simplify_eq; try done.
  all: try (by apply Hsame).
  all: f_equal; f_equal; symmetry; by apply insert_id.
Qed.

End UserServiceRuns.

(** X2.  What [update_user] returns is what [get_user] reads back, and the same
    update applied once more changes nothing. *)
Theorem update_user_read_back :
  ∀ (uid : string) (nm ct : option string) (s s' : Store) (u' : User),
    keyed s →
    UserService.update_user uid nm ct s = Ok u' s' →
    UserService.get_user uid s' = Ok u' s'
    ∧ UserService.update_user uid nm ct s' = Ok u' s'.
Proof.
  intros uid nm ct s s' u' Hkeyed Hrun.
  destruct (users s !! uid) as [u|] eqn:E.
  2:{ unfold UserService.update_user in Hrun. revert Hrun. run_db.
      rewrite (get_user_missing _ _ E). discriminate. }
  rewrite (update_user_run uid nm ct s u Hkeyed E) in Hrun.
  injection Hrun as <- <-.
  assert (Hlk : users (with_row uid (patched nm ct u) s) !! uid
                = Some (patched nm ct u)) by apply lookup_insert_eq.
  split; [by apply get_user_found|].
  rewrite (update_user_run uid nm ct _ (patched nm ct u)); [|.. | exact Hlk].
  - by rewrite patched_twice, with_row_twice.
  - apply with_row_keyed; [done|]. rewrite patched_user_id.
    destruct Hkeyed as [Hk _]. exact (Hk _ _ E).
Qed.

Lemma update_user_read_back_witness :
  ∃ u' s',
    UserService.update_user "ali" (Some "Ali K.") None store_ali = Ok u' s'
    ∧ UserService.get_user "ali" s' = Ok u' s'
    ∧ UserService.update_user "ali" (Some "Ali K.") None s' = Ok u' s'.
Proof.
  eexists _, _. split; [vm_compute; reflexivity|].
  apply (update_user_read_back "ali" (Some "Ali K.") None store_ali).
  - exact keyed_store_ali.
  - vm_compute. reflexivity.
Defined.

(** X3.  On a user that exists [get_or_create_user] is [update_user]: it returns
    the same row and leaves the same store. *)
Theorem get_or_create_user_is_update_on_existing :
  ∀ (env : Env) (uid : string) (nm ct : option string) (s : Store),
    keyed s →
    is_Some (users s !! uid) →
    UserService.get_or_create_user env uid nm ct s
    = UserService.update_user uid nm ct s.
Proof.
  intros env uid nm ct s Hkeyed [u E].
  by rewrite (get_or_create_user_existing env uid nm ct s u),
    (update_user_run uid nm ct s u).
Qed.

Lemma get_or_create_user_is_update_on_existing_witness :
  UserService.get_or_create_user env0 "ali" None (Some "Kasur") store_ali
  = UserService.update_user "ali" None (Some "Kasur") store_ali.
Proof.
  apply (get_or_create_user_is_update_on_existing env0 "ali" None
           (Some "Kasur") store_ali).
  - exact keyed_store_ali.
  - exists ali. reflexivity.
Defined.

(** X4.  [get_or_create_user] never raises, leaves a row under the id, and is
    idempotent: the same call repeated returns the same row and changes
    nothing more. *)
Theorem get_or_create_user_idempotent :
  ∀ (env : Env) (uid : string) (nm ct : option string) (s : Store),
    keyed s →
    ∃ u s',
      UserService.get_or_create_user env uid nm ct s = Ok u s'
      ∧ users s' !! uid = Some u
      ∧ user_id u = uid
      ∧ UserService.get_or_create_user env uid nm ct s' = Ok u s'.
Proof.
  intros env uid nm ct s Hkeyed.
  assert (Hagain : ∀ u : User,
            user_id u = uid → patched nm ct u = u →
            UserService.get_or_create_user env uid nm ct (with_row uid u s)
            = Ok u (with_row uid u s)).
  { intros u Hid Hfix.
    rewrite (get_or_create_user_existing env uid nm ct _ u).
    - by rewrite Hfix, with_row_twice.
    - by apply with_row_keyed.
    - apply lookup_insert_eq. }
  destruct (users s !! uid) as [u|] eqn:E.
  - rewrite (get_or_create_user_existing env uid nm ct s u Hkeyed E).
    eexists _, _. split; [reflexivity|].
    split; [apply lookup_insert_eq|].
    destruct Hkeyed as [Hk ?].
    assert (Hid : user_id (patched nm ct u) = uid)
      by (rewrite patched_user_id; exact (Hk _ _ E)).
    split; [exact Hid|].
    apply Hagain; [exact Hid|apply patched_twice].
  - unfold UserService.get_or_create_user at 1. run_db. rewrite E.
    rewrite create_user_fresh by done.
    eexists _, _. split; [reflexivity|]. simpl.
    split; [by rewrite lookup_insert_eq|]. split; [done|].
    apply (Hagain (new_User env uid nm ct)); [done|].
    by destruct nm, ct.
Qed.

Lemma get_or_create_user_idempotent_witness :
  ∃ u s',
    UserService.get_or_create_user env0 "zara" (Some "Zara") None empty_store
    = Ok u s'
    ∧ users s' !! "zara" = Some u
    ∧ user_id u = "zara"
    ∧ UserService.get_or_create_user env0 "zara" (Some "Zara") None s'
      = Ok u s'.
Proof.
  apply (get_or_create_user_idempotent env0 "zara" (Some "Zara") None
           empty_store).
  exact keyed_empty_store.
Defined.

(** X5.  [delete_user] on an existing user returns; the row is gone, so that
    reading, or deleting, the user again raises [UserNotFoundException]; the
    other users are untouched; exactly the sessions of other owners remain,
    and exactly the turns outside the user's sessions; the id is free
    again for [create_user], which starts a row without history. *)
Theorem delete_user_removes_user_and_sessions :
  ∀ (env : Env) (uid : string) (nm ct : option string)
    (s : Store) (u : User),
    keyed s →
    users s !! uid = Some u →
    ∃ s',
      UserService.delete_user uid s = Ok tt s'
      ∧ users s' = delete uid (users s)
      ∧ UserService.get_user uid s'
        = Raise (UserNotFound (UserNotFoundException uid)) s'
      ∧ UserService.delete_user uid s'
        = Raise (UserNotFound (UserNotFoundException uid)) s'
      ∧ (∀ k, k ≠ uid → users s' !! k = users s !! k)
      ∧ (∀ k c, sessions s' !! k = Some c
                ↔ sessions s !! k = Some c ∧ owner c ≠ uid)
      ∧ (∀ m, m ∈ messages s'
              ↔ m ∈ messages s
                ∧ owner <$> sessions s !! msg_session m ≠ Some uid)
      ∧ ∃ s'', UserService.create_user env uid nm ct s'
               = Ok (new_User env uid nm ct) s''.
Proof.
  intros env uid nm ct s u [Hk _] E.
  pose proof (Hk _ _ E) as Hid. simpl in Hid.
  unfold UserService.delete_user at 1. run_db.
  rewrite (get_user_found _ _ _ E). unfold Db.delete_User. rewrite Hid.
  eexists. split; [reflexivity|]. simpl.
  set (s' := {| users := delete uid (users s);
                sessions := filter (λ kc, owner kc.2 ≠ uid) (sessions s);
                messages := filter (λ m, owner <$> sessions s !! msg_session m
                                         ≠ Some uid) (messages s) |}).
  assert (Hgone : users s' !! uid = None) by apply lookup_delete_eq.
  split; [done|].
  split; [by apply get_user_missing|].
  split.
  { unfold UserService.delete_user. run_db.
    by rewrite (get_user_missing _ _ Hgone). }
  split; [intros k Hne; by apply lookup_delete_ne|].
  split; [intros k c; apply map_lookup_filter_Some|].
  split.
  { intros m. rewrite list_elem_of_filter. tauto. }
  eexists. by apply create_user_fresh.
Qed.

Lemma delete_user_removes_user_and_sessions_witness :
  ∃ s',
    UserService.delete_user "ali" store_chat = Ok tt s'
    ∧ users s' = delete "ali" (users store_chat)
    ∧ UserService.get_user "ali" s'
      = Raise (UserNotFound (UserNotFoundException "ali")) s'
    ∧ UserService.delete_user "ali" s'
      = Raise (UserNotFound (UserNotFoundException "ali")) s'
    ∧ (∀ k, k ≠ "ali" → users s' !! k = users store_chat !! k)
    ∧ (∀ k c, sessions s' !! k = Some c
              ↔ sessions store_chat !! k = Some c ∧ owner c ≠ "ali")
    ∧ (∀ m, m ∈ messages s'
            ↔ m ∈ messages store_chat
              ∧ owner <$> sessions store_chat !! msg_session m ≠ Some "ali")
    ∧ ∃ s'', UserService.create_user env0 "ali" None None s'
             = Ok (new_User env0 "ali" None None) s''.
Proof.
  apply (delete_user_removes_user_and_sessions env0 "ali" None None
           store_chat ali).
  - exact keyed_store_chat.
  - reflexivity.
Defined.

Section ListOrderFacts.
Context {A : Type} (R : relation A).

Lemma StronglySorted_drop n (l : list A) :
  StronglySorted R l → StronglySorted R (drop n l).
Proof.
  revert n. induction l as [|x l IH]; intros [|n] Hs; simpl; try done.
  apply IH. by inversion Hs.
Qed.

Lemma StronglySorted_take n (l : list A) :
  StronglySorted R l → StronglySorted R (take n l).
Proof.
  revert n. induction l as [|x l IH]; intros [|n] Hs; simpl;
    try constructor.
  - apply IH. by inversion Hs.
  - apply Forall_take. by inversion Hs.
Qed.

End ListOrderFacts.

Lemma filter_keeps {A} (p : A → bool) (l : list A) :
  Forall (λ x, p x = true) (List.filter p l).
Proof.
  apply Forall_forall. intros x Hx. apply list_elem_of_In in Hx.
  by apply filter_In in Hx as [_ ?].
Qed.

Lemma filter_from {A} (p : A → bool) (l : list A) :
  Forall (λ x, x ∈ l) (List.filter p l).
Proof.
  apply Forall_forall. intros x Hx. apply list_elem_of_In in Hx.
  apply filter_In in Hx as [? _]. by apply list_elem_of_In.
Qed.

(** X6.  [_map_user_with_sessions] lists exactly the user's sessions that are
    active and have at least one message, newest first, and reports their
    number as [session_count]; the profile columns are copied, and the
    stored session counter plays no part in the result. *)
Theorem map_user_with_sessions_active_newest_first :
  ∀ (user : User) (user_sessions : list ChatSession),
    let r := UserService._map_user_with_sessions user user_sessions in
    Schemas.uws_session_count r = Z.of_nat (length (Schemas.uws_sessions r))
    ∧ Forall (λ x, Schemas.status x = ACTIVE ∧ (0 < Schemas.message_count x)%Z)
        (Schemas.uws_sessions r)
    ∧ StronglySorted (not_older Schemas.summary_created_at)
        (Schemas.uws_sessions r)
    ∧ Schemas.uws_sessions r
      ≡ₚ map UserService.summary
           (List.filter (λ c, bool_decide (status c = ACTIVE)
                              && (0 <? message_count c)%Z) user_sessions)
    ∧ (Schemas.uws_user_id r, Schemas.uws_name r, Schemas.uws_city r,
       Schemas.uws_created_at r)
      = (user_id user, name user, city user, created_at user)
    ∧ ∀ k : Z,
        UserService._map_user_with_sessions
          {| user_id := user_id user; name := name user; city := city user;
             created_at := created_at user; session_count := k |}
          user_sessions
        = r.
Proof.
  intros user user_sessions r. subst r.
  unfold UserService._map_user_with_sessions. simpl.
  split; [done|]. split; [|split; [|split; [|done]]].
  - apply Forall_fmap. apply sort_desc_Forall.
    eapply Forall_impl; [apply filter_keeps|].
    intros c Hc. simpl in *. apply andb_true_iff in Hc as [H1 H2].
    apply bool_decide_eq_true in H1. apply Z.ltb_lt in H2. done.
  - apply (StronglySorted_fmap _ (not_older session_created_at));
      [done|apply sort_desc_strongly_sorted].
  - apply Permutation_map, sort_desc_perm.
Qed.

Example map_user_with_sessions_sample :
  map Schemas.id
    (Schemas.uws_sessions
       (UserService._map_user_with_sessions ali
          [ {| id := 1; owner := "ali"; user_name := None; location := None;
               status := ACTIVE; message_count := 2;
               session_created_at := 10 |};
            {| id := 2; owner := "ali"; user_name := None; location := None;
               status := ACTIVE; message_count := 0;
               session_created_at := 20 |};
            {| id := 3; owner := "ali"; user_name := None; location := None;
               status := DELETED; message_count := 5;
               session_created_at := 30 |};
            {| id := 4; owner := "ali"; user_name := None; location := None;
               status := ACTIVE; message_count := 1;
               session_created_at := 40 |} ]))
  = [4%N; 1%N].
Proof. reflexivity. Qed.

Section RowFacts.

Lemma elem_of_session_rows (c : ChatSession) (s : Store) :
  c ∈ session_rows s ↔ ∃ k, sessions s !! k = Some c.
Proof.
  unfold session_rows. rewrite list_elem_of_fmap. split.
  - intros [[k c'] [-> Hin]]. exists k. by apply elem_of_map_to_list.
  - intros [k Hk]. exists (k, c). split; [done|].
    by apply elem_of_map_to_list.
Qed.

Lemma elem_of_user_rows (u : User) (s : Store) :
  u ∈ user_rows s ↔ ∃ k, users s !! k = Some u.
Proof.
  unfold user_rows. rewrite list_elem_of_fmap. split.
  - intros [[k u'] [-> Hin]]. exists k. by apply elem_of_map_to_list.
  - intros [k Hk]. exists (k, u). split; [done|].
    by apply elem_of_map_to_list.
Qed.

Lemma user_rows_ids (s : Store) :
  keyed s → user_id <$> user_rows s = (map_to_list (users s)).*1.
Proof.
  intros [Hk _]. unfold user_rows. rewrite <- list_fmap_compose.
  apply list_fmap_ext. intros i [k u] Hi. simpl.
  apply (Hk k u). apply elem_of_map_to_list.
  apply list_elem_of_lookup. eauto.
Qed.

Lemma session_rows_ids (s : Store) :
  keyed s → id <$> session_rows s = (map_to_list (sessions s)).*1.
Proof.
  intros [_ Hk]. unfold session_rows. rewrite <- list_fmap_compose.
  apply list_fmap_ext. intros i [k c] Hi. simpl.
  apply (Hk k c). apply elem_of_map_to_list.
  apply list_elem_of_lookup. eauto.
Qed.

Lemma NoDup_window {A} (n m : nat) (l : list A) :
  NoDup l → NoDup (take n (drop m l)).
Proof.
  intros H. eapply sublist_NoDup; [|apply sublist_take].
  eapply sublist_NoDup; [exact H|apply sublist_drop].
Qed.

End RowFacts.

(** X7.  [get_users_with_sessions] reads without writing and returns one entry
    per user of a window of the users table: at most [limit] entries, fewer
    only when fewer rows are left after [offset]; no user twice; each entry is
    built from a stored user, and every session listed under a user is a
    stored session of that user. *)
Theorem get_users_with_sessions_page :
  ∀ (limit offset : nat) (s : Store),
    keyed s →
    ∃ page,
      UserService.get_users_with_sessions limit offset s = Ok page s
      ∧ length page = Nat.min limit (size (users s) - offset)
      ∧ NoDup (Schemas.uws_user_id <$> page)
      ∧ Forall (λ r, ∃ u, users s !! Schemas.uws_user_id r = Some u
                          ∧ r = UserService._map_user_with_sessions u
                                  (sessions_of u s)) page
      ∧ Forall (λ r, Forall (λ x, ∃ c, sessions s !! Schemas.id x = Some c
                                       ∧ owner c = Schemas.uws_user_id r
                                       ∧ x = UserService.summary c)
                       (Schemas.uws_sessions r)) page.
Proof.
  intros limit offset s Hkeyed.
  unfold UserService.get_users_with_sessions. eexists. split; [reflexivity|].
  set (window := take limit (drop offset (user_rows s))).
  assert (Hwin : Forall (λ u, users s !! user_id u = Some u) window).
  { apply Forall_take, Forall_drop, Forall_forall. intros u Hu.
    apply elem_of_user_rows in Hu as [k Hk].
    destruct Hkeyed as [Hku _]. by rewrite (Hku k u Hk). }
  split; [|split; [|split]].
  - rewrite length_map. subst window.
    rewrite length_take, length_drop. unfold user_rows.
    by rewrite length_fmap, length_map_to_list.
  - change (NoDup (Schemas.uws_user_id
                   <$> ((λ user, UserService._map_user_with_sessions user
                                   (sessions_of user s)) <$> window))).
    rewrite <- list_fmap_compose.
    change (NoDup (user_id <$> window)). subst window.
    rewrite fmap_take, fmap_drop. apply NoDup_window.
    rewrite user_rows_ids by done. apply NoDup_fst_map_to_list.
  - apply Forall_fmap. eapply Forall_impl; [exact Hwin|].
    intros u Hu. simpl. exists u. split; [exact Hu|reflexivity].
  - apply Forall_fmap. eapply Forall_impl; [exact Hwin|].
    intros u Hu. simpl. apply Forall_fmap. apply sort_desc_Forall.
    eapply Forall_impl; [apply filter_from|].
    intros c Hc. simpl in *. unfold sessions_of in Hc.
    apply list_elem_of_In, filter_In in Hc as [Hin Hown].
    apply bool_decide_eq_true in Hown.
    apply list_elem_of_In, elem_of_session_rows in Hin as [k Hk].
    destruct Hkeyed as [_ Hks]. exists c.
    pose proof (Hks k c Hk) as Hid. simpl in Hid.
    split; [by rewrite Hid|]. done.
Qed.

Lemma get_users_with_sessions_page_witness :
  ∃ page,
    UserService.get_users_with_sessions 10 0 store_chat = Ok page store_chat
    ∧ length page = Nat.min 10 (size (users store_chat) - 0)
    ∧ NoDup (Schemas.uws_user_id <$> page)
    ∧ Forall (λ r, ∃ u, users store_chat !! Schemas.uws_user_id r = Some u
                        ∧ r = UserService._map_user_with_sessions u
                                (sessions_of u store_chat)) page
    ∧ Forall (λ r, Forall (λ x, ∃ c, sessions store_chat !! Schemas.id x
                                     = Some c
                                     ∧ owner c = Schemas.uws_user_id r
                                     ∧ x = UserService.summary c)
                     (Schemas.uws_sessions r)) page.
Proof.
  apply (get_users_with_sessions_page 10 0 store_chat).
  exact keyed_store_chat.
Defined.

(** ** More on the session service *)

(** X8.  Where no session has the id, [get_session], [delete_session] and
    [get_user_session] raise [SessionNotFoundException], status 404, naming
    the id, and leave the store as it was. *)
Theorem missing_session_is_not_found :
  ∀ (uid : string) (sid : N) (s : Store),
    sessions s !! sid = None →
    let e := SessionNotFound
               (SessionNotFoundException (SessionService.str_UUID sid)) in
    SessionService.get_session sid s = Raise e s
    ∧ SessionService.delete_session sid s = Raise e s
    ∧ SessionService.get_user_session uid sid s = Raise e s
    ∧ status_code (SessionNotFoundException (SessionService.str_UUID sid))
      = 404%Z
    ∧ details (SessionNotFoundException (SessionService.str_UUID sid))
      = [("session_id", SessionService.str_UUID sid)].
Proof.
  intros uid sid s Hnone e. subst e.
  unfold SessionService.delete_session, SessionService.get_session,
    SessionService.get_user_session.
  run_db. by rewrite Hnone.
Qed.

Lemma missing_session_is_not_found_witness :
  SessionService.get_session 9 store_chat
  = Raise (SessionNotFound
             (SessionNotFoundException (SessionService.str_UUID 9))) store_chat
  ∧ SessionService.delete_session 9 store_chat
    = Raise (SessionNotFound
               (SessionNotFoundException (SessionService.str_UUID 9)))
        store_chat
  ∧ SessionService.get_user_session "ali" 9 store_chat
    = Raise (SessionNotFound
               (SessionNotFoundException (SessionService.str_UUID 9)))
        store_chat
  ∧ status_code (SessionNotFoundException (SessionService.str_UUID 9))
    = 404%Z
  ∧ details (SessionNotFoundException (SessionService.str_UUID 9))
    = [("session_id", SessionService.str_UUID 9)].
Proof.
  apply (missing_session_is_not_found "ali" 9 store_chat). reflexivity.
Defined.

(** X9.  A session that [create_session] returned is what [get_session] reads
    under its id, and what [get_user_session] reads for its owner. *)
Theorem create_session_read_back :
  ∀ (env : Env) (uid : string) (osid : option N) (unm loc : option string)
    (s s' : Store) (c : ChatSession),
    keyed s →
    SessionService.create_session env uid osid unm loc s = Ok c s' →
    SessionService.get_session (id c) s' = Ok c s'
    ∧ SessionService.get_user_session uid (id c) s' = Ok c s'
    ∧ status c = ACTIVE ∧ message_count c = 0%Z.
Proof.
  intros env uid osid unm loc s s' c Hk Hrun.
  rewrite (create_session_run env uid osid unm loc s Hk) in Hrun.
  destruct (sessions s !! _); [discriminate|].
  injection Hrun as <- <-. simpl.
  unfold SessionService.get_session, SessionService.get_user_session.
  run_db. rewrite lookup_insert_eq. simpl.
  by rewrite bool_decide_eq_true_2.
Qed.

Lemma create_session_read_back_witness :
  ∃ c s',
    SessionService.create_session env0 "ali" None None None store_ali = Ok c s'
    ∧ SessionService.get_session (id c) s' = Ok c s'
    ∧ SessionService.get_user_session "ali" (id c) s' = Ok c s'
    ∧ status c = ACTIVE ∧ message_count c = 0%Z.
Proof.
  eexists _, _. split; [vm_compute; reflexivity|].
  apply (create_session_read_back env0 "ali" None None None store_ali).
  - exact keyed_store_ali.
  - vm_compute. reflexivity.
Defined.

(** X10.  Deleting a session that was just created gives back the sessions table
    and every existing session's turns, yet the owner's session count stays
    one higher: the count is of sessions ever created, not of sessions
    kept. *)
Theorem create_then_delete_session :
  ∀ (env : Env) (uid : string) (osid : option N) (unm loc : option string)
    (s s' : Store) (c : ChatSession),
    keyed s →
    SessionService.create_session env uid osid unm loc s = Ok c s' →
    ∃ s'',
      SessionService.delete_session (id c) s' = Ok tt s''
      ∧ sessions s'' = sessions s
      ∧ (∀ k, is_Some (sessions s !! k) →
              ContextWindow.session_turns k s''
              = ContextWindow.session_turns k s)
      ∧ users s'' = users s'
      ∧ session_count <$> users s'' !! uid
        = Some (default 0 (session_count <$> users s !! uid) + 1)%Z.
Proof.
  intros env uid osid unm loc s s' c Hk Hrun.
  rewrite (create_session_run env uid osid unm loc s Hk) in Hrun.
  destruct (sessions s !! _) eqn:Hfree; [discriminate|].
  injection Hrun as <- <-. simpl.
  unfold SessionService.delete_session, SessionService.get_session.
  run_db. rewrite lookup_insert_eq. simpl.
  eexists. split; [reflexivity|]. simpl.
  split; [by apply delete_insert_id|].
  split; [|split; [done|]].
  - intros k [c0 Hc0]. unfold ContextWindow.session_turns. simpl.
    assert (Hne : k ≠ match osid with Some i => i | None => uuid4 env end)
      by congruence.
    induction (messages s) as [|m l IH]; [done|].
    rewrite !filter_cons.
    destruct (decide (msg_session m ≠ _)) as [Hm|Hm].
    + rewrite filter_cons. by rewrite IH.
    + destruct (decide (msg_session m = k)) as [Hmk|Hmk].
      * exfalso. apply Hm. congruence.
      * exact IH.
  - rewrite lookup_insert_eq. unfold profile.
    by destruct (users s !! uid).
Qed.

Lemma create_then_delete_session_witness :
  ∃ c s' s'',
    SessionService.create_session env0 "ali" (Some 9%N) None None store_chat
    = Ok c s'
    ∧ SessionService.delete_session (id c) s' = Ok tt s''
    ∧ sessions s'' = sessions store_chat
    ∧ (∀ k, is_Some (sessions store_chat !! k) →
            ContextWindow.session_turns k s''
            = ContextWindow.session_turns k store_chat)
    ∧ users s'' = users s'
    ∧ session_count <$> users s'' !! "ali"
      = Some (default 0 (session_count <$> users store_chat !! "ali") + 1)%Z.
Proof.
  eexists _, _.
  assert (Hrun : SessionService.create_session env0 "ali" (Some 9%N) None None
                   store_chat
                 = Ok (new_ChatSession env0 9 "ali" (Some "Ali") (Some "Lahore"))
                      {| users := <["ali" := Models.increment_session_count ali]>
                                    (users store_chat);
                         sessions := <[9%N := new_ChatSession env0 9 "ali"
                                                (Some "Ali") (Some "Lahore")]>
                                       (sessions store_chat);
                         messages := messages store_chat |})
    by (rewrite (create_session_run env0 "ali" (Some 9%N) None None store_chat
                   keyed_store_chat); reflexivity).
  destruct (create_then_delete_session env0 "ali" (Some 9%N) None None
              store_chat _ _ keyed_store_chat Hrun) as [s'' H].
  exists s''. split; [exact Hrun|exact H].
Defined.

(** X11.  [get_user_session] returns a session exactly when it is stored under the
    id and owned by the given user; a session of another owner is reported
    missing, by the same exception as an id that is not there.  [get_session]
    asks for no owner and returns the session whoever owns it. *)
Theorem get_user_session_owner_only :
  ∀ (uid : string) (sid : N) (s : Store),
    (∀ c s', SessionService.get_user_session uid sid s = Ok c s'
             ↔ sessions s !! sid = Some c ∧ owner c = uid ∧ s' = s)
    ∧ (∀ c, sessions s !! sid = Some c → owner c ≠ uid →
            SessionService.get_user_session uid sid s
            = Raise (SessionNotFound
                       (SessionNotFoundException (SessionService.str_UUID sid)))
                s
            ∧ SessionService.get_session sid s = Ok c s).
Proof.
  intros uid sid s. unfold SessionService.get_user_session,
    SessionService.get_session. run_db.
  split.
  - intros c s'. destruct (sessions s !! sid) as [c0|] eqn:E.
    + case_bool_decide as Hown; split.
      * intros [= <- <-]. done.
      * intros ([= ->] & _ & ->). done.
      * discriminate.
      * intros ([= ->] & Hc & _). done.
    + split; [discriminate|]. by intros [? _].
  - intros c E Hne. rewrite E. simpl.
    by rewrite bool_decide_eq_false_2.
Qed.

Lemma get_user_session_owner_only_witness :
  SessionService.get_user_session "ali" 7 store_two_owners
  = Raise (SessionNotFound
             (SessionNotFoundException (SessionService.str_UUID 7)))
      store_two_owners
  ∧ SessionService.get_session 7 store_two_owners
    = Ok (new_ChatSession env0 7 "zara" None None) store_two_owners.
Proof.
  destruct (get_user_session_owner_only "ali" 7 store_two_owners) as [_ H].
  apply (H (new_ChatSession env0 7 "zara" None None)).
  - reflexivity.
  - discriminate.
Defined.

Lemma NoDup_fmap_filter {A B} (f : A → B) (p : A → bool) (l : list A) :
  NoDup (f <$> l) → NoDup (f <$> List.filter p l).
Proof.
  induction l as [|x l IH]; [done|].
  rewrite fmap_cons, NoDup_cons. intros [Hx Hl]. simpl.
  destruct (p x); [|by apply IH].
  rewrite fmap_cons, NoDup_cons. split; [|by apply IH].
  intros Hin. apply Hx.
  apply list_elem_of_fmap in Hin as (y & -> & Hy).
  apply list_elem_of_fmap. exists y. split; [done|].
  apply list_elem_of_In. apply list_elem_of_In in Hy.
  by apply filter_In in Hy as [? _].
Qed.

(** X12.  [get_user_sessions] reads without writing.  Its result is a window,
    [offset] rows skipped and at most [limit] kept, of a list that holds each
    stored session of the user that is active and has at least
    [min_messages] messages, once, newest first; so the window is newest first
    too and holds no session of anybody else, none that is deleted and none
    with fewer messages. *)
Theorem get_user_sessions_page :
  ∀ (uid : string) (limit offset : nat) (min_messages : Z) (s : Store),
    keyed s →
    ∃ all,
      SessionService.get_user_sessions uid limit offset min_messages s
      = Ok (take limit (drop offset all)) s
      ∧ (∀ c, c ∈ all
              ↔ sessions s !! id c = Some c ∧ owner c = uid
                ∧ status c = ACTIVE ∧ (min_messages <= message_count c)%Z)
      ∧ NoDup (id <$> all)
      ∧ StronglySorted (not_older session_created_at) all
      ∧ StronglySorted (not_older session_created_at)
          (take limit (drop offset all))
      ∧ (length (take limit (drop offset all)) <= limit)%nat.
Proof.
  intros uid limit offset min_messages s Hkeyed.
  unfold SessionService.get_user_sessions.
  eexists. split; [reflexivity|].
  split; [|split; [|split; [|split]]].
  - intros c. rewrite sort_desc_perm.
    rewrite list_elem_of_In, filter_In, <- list_elem_of_In.
    rewrite !andb_true_iff, !bool_decide_eq_true, Z.leb_le.
    rewrite elem_of_session_rows. destruct Hkeyed as [_ Hks]. split.
    + intros [[k Hk] [[? ?] ?]].
      pose proof (Hks k c Hk) as Hid. simpl in Hid. by rewrite Hid.
    + intros (? & ? & ? & ?). eauto.
  - assert (Hp : id <$> sort_desc session_created_at
                   (List.filter
                      (λ c, bool_decide (owner c = uid)
                            && bool_decide (status c = ACTIVE)
                            && (min_messages <=? message_count c)%Z)
                      (session_rows s))
                 ≡ₚ id <$> List.filter
                      (λ c, bool_decide (owner c = uid)
                            && bool_decide (status c = ACTIVE)
                            && (min_messages <=? message_count c)%Z)
                      (session_rows s))
      by (by rewrite sort_desc_perm).
    rewrite Hp. apply NoDup_fmap_filter.
    rewrite session_rows_ids by done. apply NoDup_fst_map_to_list.
  - apply sort_desc_strongly_sorted.
  - apply StronglySorted_take, StronglySorted_drop,
      sort_desc_strongly_sorted.
  - rewrite length_take. lia.
Qed.

Lemma get_user_sessions_page_witness :
  ∃ all,
    SessionService.get_user_sessions "ali" 50 0 0 store_chat
    = Ok (take 50 (drop 0 all)) store_chat
    ∧ (∀ c, c ∈ all
            ↔ sessions store_chat !! id c = Some c ∧ owner c = "ali"
              ∧ status c = ACTIVE ∧ (0 <= message_count c)%Z)
    ∧ NoDup (id <$> all)
    ∧ StronglySorted (not_older session_created_at) all
    ∧ StronglySorted (not_older session_created_at) (take 50 (drop 0 all))
    ∧ (length (take 50 (drop 0 all)) <= 50)%nat.
Proof.
  apply (get_user_sessions_page "ali" 50 0 0 store_chat).
  exact keyed_store_chat.
Defined.

(** ** More on the logging context *)

Section LoggingMore.
Import Logging.

Lemma enter_lookup (rid sid uid : option string) (ctx : Context) :
  let c1 := (__enter__ (__init__ rid sid uid) ctx).2 in
  c1 !! request_id_var
  = (if truthy rid then Some rid else ctx !! request_id_var)
  ∧ c1 !! session_id_var
    = (if truthy sid then Some sid else ctx !! session_id_var)
  ∧ c1 !! user_id_var
    = (if truthy uid then Some uid else ctx !! user_id_var).
Proof.
  unfold __enter__, __init__, set_if, set.
  cbn [_tokens request_id session_id user_id].
  unfold request_id_var, session_id_var, user_id_var.
  destruct (truthy rid), (truthy sid), (truthy uid); cbn.
  all: repeat split.
  all: by rewrite ?lookup_insert_eq, ?lookup_insert_ne, ?lookup_insert_eq
         by done.
Qed.

End LoggingMore.

(** X13.  Inside the block each variable reads as the argument passed for it when
    that is a non-empty string, and as before otherwise; no other variable
    is touched; and a [LogContext] whose arguments are all [None] or empty
    sets nothing and records no token. *)
Theorem enter_binds_arguments :
  ∀ (rid sid uid : option string) (ctx : Logging.Context),
    let e := Logging.__enter__ (Logging.__init__ rid sid uid) ctx in
    Logging.get Logging.request_id_var e.2
    = (if truthy rid then rid else Logging.get Logging.request_id_var ctx)
    ∧ Logging.get Logging.session_id_var e.2
      = (if truthy sid then sid else Logging.get Logging.session_id_var ctx)
    ∧ Logging.get Logging.user_id_var e.2
      = (if truthy uid then uid else Logging.get Logging.user_id_var ctx)
    ∧ (∀ k, set_by_enter rid sid uid k = false → e.2 !! k = ctx !! k)
    ∧ (truthy rid || truthy sid || truthy uid = false →
       e.2 = ctx ∧ Logging._tokens e.1 = []).
Proof.
  intros rid sid uid ctx e. subst e.
  destruct (enter_lookup rid sid uid ctx) as (H1 & H2 & H3).
  unfold Logging.get. rewrite H1, H2, H3.
  split; [by destruct (truthy rid)|].
  split; [by destruct (truthy sid)|].
  split; [by destruct (truthy uid)|].
  split; [intros k Hk; by apply enter_lookup_other|].
  intros Hnone.
  destruct (truthy rid) eqn:Er; [done|].
  destruct (truthy sid) eqn:Es; [done|].
  destruct (truthy uid) eqn:Eu; [done|].
  unfold Logging.__enter__, Logging.__init__, Logging.set_if. simpl.
  by rewrite Er, Es, Eu.
Qed.

Lemma enter_binds_arguments_witness :
  (Logging.__enter__ (Logging.__init__ None (Some "") None) outer_context).2
  = outer_context
  ∧ Logging._tokens
      (Logging.__enter__ (Logging.__init__ None (Some "") None)
         outer_context).1
    = [].
Proof.
  apply (enter_binds_arguments None (Some "") None outer_context).
  reflexivity.
Defined.

Section LoggingTokens.
Import Logging.

Lemma enter_exit_identity (rid sid uid : option string) (ctx : Context) :
  let e := __enter__ (__init__ rid sid uid) ctx in
  (__exit__ e.1 e.2).1.1 = None ∧ (__exit__ e.1 e.2).2 = ctx.
Proof.
  intros e. destruct (enter_exit_lookup rid sid uid ctx e.2) as [Hnone Hlk].
  fold e in Hnone, Hlk. split; [exact Hnone|].
  apply map_eq. intros k. rewrite Hlk.
  destruct (set_by_enter rid sid uid k) eqn:E; [done|].
  by apply enter_lookup_other.
Qed.

(** Entering an object that already holds tokens adds the new tokens behind
    them and treats the context as a fresh object would. *)
Lemma enter_appends (rid sid uid : option string) (old : list Token)
    (ctx : Context) :
  let e0 := __enter__ (__init__ rid sid uid) ctx in
  __enter__ {| request_id := rid; session_id := sid; user_id := uid;
               _tokens := old |} ctx
  = ({| request_id := rid; session_id := sid; user_id := uid;
        _tokens := old ++ _tokens e0.1 |}, e0.2).
Proof.
  unfold __enter__, __init__, set_if.
  cbn [_tokens request_id session_id user_id].
  destruct (truthy rid), (truthy sid), (truthy uid); cbn;
    by rewrite <- ?app_assoc, ?app_nil_r.
Qed.

Lemma enter_tokens_nonempty (rid sid uid : option string) (ctx : Context) :
  truthy rid || truthy sid || truthy uid = true →
  _tokens (__enter__ (__init__ rid sid uid) ctx).1 ≠ [].
Proof.
  unfold __enter__, __init__, set_if.
  cbn [_tokens request_id session_id user_id].
  destruct (truthy rid), (truthy sid), (truthy uid); cbn; done.
Qed.

Lemma reset_each_app (l1 l2 : list Token) (ctx : Context) :
  reset_each (l1 ++ l2) ctx
  = match reset_each l1 ctx with
    | (None, l1', ctx') =>
        let '(r, l2', ctx'') := reset_each l2 ctx' in (r, l1' ++ l2', ctx'')
    | (Some e, l1', ctx') => (Some e, l1' ++ l2, ctx')
    end.
Proof.
  revert ctx. induction l1 as [|t l1 IH]; intros ctx; simpl.
  - by destruct (reset_each l2 ctx) as [[r l2'] ctx''].
  - destruct (reset t ctx) as [e|[t' ctx']]; [done|].
    rewrite IH. destruct (reset_each l1 ctx') as [[[e|] l1'] c1]; [done|].
    by destruct (reset_each l2 c1) as [[r l2'] c2].
Qed.

(** The tokens a completed loop leaves are all used, and as many as it was
    given. *)
Lemma reset_each_marks (l : list Token) : ∀ (ctx : Context) l' ctx',
  reset_each l ctx = (None, l', ctx') →
  Forall (λ t, used t = true) l' ∧ length l' = length l.
Proof.
  induction l as [|t l IH]; intros ctx l' ctx' H; simpl in H.
  - by injection H as <- <-.
  - unfold reset in H. destruct (used t); [discriminate|].
    destruct (reset_each l _) as [[r l''] c''] eqn:E.
    injection H as -> <- <-.
    destruct (IH _ _ _ E) as [Hall Hlen].
    split; [by constructor|]. simpl. by rewrite Hlen.
Qed.

Lemma reset_each_used (l : list Token) (ctx : Context) :
  l ≠ [] → Forall (λ t, used t = true) l →
  reset_each l ctx
  = (Some (RuntimeError "Token has already been used once"), l, ctx).
Proof.
  destruct l as [|t l]; [done|]. intros _ Hall. simpl. unfold reset.
  by rewrite (Forall_inv Hall).
Qed.

End LoggingTokens.

(** X14.  A [LogContext] object serves one [with] block.  Its tokens are kept
    after the block, so when the same object is entered and left a second
    time, [__exit__] resets the new tokens and then meets a used one: it
    raises [RuntimeError], the variables being back at their values by
    then.  (Objects that set nothing have no tokens and are exempt.) *)
Theorem LogContext_is_single_use :
  ∀ (rid sid uid : option string) (ctx : Logging.Context),
    truthy rid || truthy sid || truthy uid = true →
    let first := Logging.__enter__ (Logging.__init__ rid sid uid) ctx in
    let left := Logging.__exit__ first.1 first.2 in
    let second := Logging.__enter__ left.1.2 left.2 in
    let left_again := Logging.__exit__ second.1 second.2 in
    left.1.1 = None
    ∧ left.2 = ctx
    ∧ left_again.1.1 = Some (RuntimeError "Token has already been used once")
    ∧ left_again.2 = ctx.
Proof.
  intros rid sid uid ctx Hsome first left second left_again.
  destruct (enter_exit_identity rid sid uid ctx) as [Hnone Hctx].
  fold first in Hnone, Hctx. fold left in Hnone, Hctx.
  split; [exact Hnone|]. split; [exact Hctx|].
  pose proof (enter_tokens_nonempty rid sid uid ctx Hsome) as Hne.
  fold first in Hne.
  (* the object after the first block *)
  assert (Hleft : ∃ marked,
            left.1.2 = {| Logging.request_id := rid; Logging.session_id := sid;
                          Logging.user_id := uid;
                          Logging._tokens := marked |}
            ∧ marked ≠ []
            ∧ Forall (λ t, Logging.used t = true) marked).
  { subst left. unfold Logging.__exit__ in *.
    destruct (Logging.reset_each (rev (Logging._tokens first.1)) first.2)
      as [[r ts] c] eqn:E.
    simpl in Hnone. subst r.
    destruct (reset_each_marks _ _ _ _ E) as [Hall Hlen].
    exists (rev ts). split.
    - simpl. f_equal; subst first; unfold Logging.__enter__; reflexivity.
    - split.
      + intros Hnil. apply (f_equal length) in Hnil.
        rewrite length_rev, Hlen, length_rev in Hnil.
        by destruct (Logging._tokens first.1).
      + apply Forall_forall. intros t Ht. apply list_elem_of_In in Ht.
        apply in_rev, list_elem_of_In in Ht.
        by apply (proj1 (Forall_forall _ _) Hall). }
  destruct Hleft as (marked & Hobj & Hmne & Hused).
  subst left_again second. rewrite Hobj, Hctx, enter_appends.
  fold first. unfold Logging.__exit__.
  cbn [Logging._tokens fst snd].
  rewrite rev_app_distr, reset_each_app.
  pose proof Hnone as Hnone'. pose proof Hctx as Hctx'.
  subst left. unfold Logging.__exit__ in Hnone', Hctx'.
  destruct (Logging.reset_each (rev (Logging._tokens first.1)) first.2)
    as [[r ts] c].
  simpl in Hnone', Hctx'. subst r c.
  rewrite reset_each_used.
  - done.
  - intros Hnil. apply Hmne. apply (f_equal (@rev _)) in Hnil.
    by rewrite rev_involutive in Hnil.
  - apply Forall_forall. intros t Ht. apply list_elem_of_In in Ht.
    apply in_rev, list_elem_of_In in Ht.
    by apply (proj1 (Forall_forall _ _) Hused).
Qed.

Lemma LogContext_is_single_use_witness :
  (Logging.__exit__
     (Logging.__enter__
        (Logging.__exit__
           (Logging.__enter__ (Logging.__init__ (Some "r-1") None None)
              outer_context).1
           (Logging.__enter__ (Logging.__init__ (Some "r-1") None None)
              outer_context).2).1.2
        outer_context).1
     (Logging.__enter__
        (Logging.__exit__
           (Logging.__enter__ (Logging.__init__ (Some "r-1") None None)
              outer_context).1
           (Logging.__enter__ (Logging.__init__ (Some "r-1") None None)
              outer_context).2).1.2
        outer_context).2).1.1
  = Some (RuntimeError "Token has already been used once").
Proof.
  destruct (LogContext_is_single_use (Some "r-1") None None outer_context
              eq_refl) as (_ & Hctx & Herr & _).
  cbv zeta in Hctx, Herr. rewrite Hctx in Herr. exact Herr.
Defined.

(** ** The formatted log record *)

Section DictFacts.

Lemma dict_get_set (k k' v : string) (d : list (string * string)) :
  dict_get k (dict_set k' v d)
  = if String.eqb k' k then Some v else dict_get k d.
Proof.
  induction d as [|[k0 v0] d IH]; simpl; [done|].
  destruct (String.eqb_spec k0 k') as [->|Hne]; simpl.
  - by destruct (String.eqb_spec k' k).
  - rewrite IH. destruct (String.eqb_spec k0 k) as [->|Hne'];
      [|done].
    destruct (String.eqb_spec k' k); [congruence|done].
Qed.

Lemma dict_get_update (k : string) (d e : list (string * string)) :
  dict_get k (dict_update d e)
  = match dict_get k (rev e) with
    | Some v => Some v
    | None => dict_get k d
    end.
Proof.
  unfold dict_update. induction e as [|[k' v'] e IH] using rev_ind; [done|].
  rewrite fold_left_app, rev_app_distr. simpl.
  rewrite dict_get_set, IH. by destruct (String.eqb k' k).
Qed.

End DictFacts.

Section FormatFacts.
Import Logging.

Lemma dict_get_add_if_set (k key var : string) (ctx : Context)
    (d : list (string * string)) :
  dict_get k (add_if_set key var ctx d)
  = if String.eqb key k && truthy (get var ctx) then get var ctx
    else dict_get k d.
Proof.
  unfold add_if_set. destruct (get var ctx) as [v|] eqn:E.
  - destruct (truthy (Some v)) eqn:Ht.
    + rewrite dict_get_set. by destruct (String.eqb key k).
    + by rewrite andb_false_r.
  - by rewrite andb_false_r.
Qed.

End FormatFacts.

(** X15.  What a formatted record says under a key is decided in this order: the
    exception text under ["exception"] when the record has one; else the
    last entry of the record's [extra] for the key; else, for the keys
    [request_id], [session_id] and [user_id], the context variable when it
    holds a non-empty string; else the record's own time stamp, level,
    logger and message.  So a context variable that is unset, [None] or
    empty leaves no key behind, and [extra] can replace any field. *)
Theorem format_fields :
  ∀ (timestamp : string) (record : Logging.LogRecord)
    (ctx : Logging.Context) (k : string),
    let d := Logging.format timestamp record ctx in
    let from_record :=
      dict_get k [("timestamp", timestamp);
                  ("level", Logging.levelname record);
                  ("logger", Logging.logger record);
                  ("message", Logging.getMessage record)] in
    let from_context :=
      if String.eqb "user_id" k
         && truthy (Logging.get Logging.user_id_var ctx)
      then Logging.get Logging.user_id_var ctx
      else if String.eqb "session_id" k
              && truthy (Logging.get Logging.session_id_var ctx)
      then Logging.get Logging.session_id_var ctx
      else if String.eqb "request_id" k
              && truthy (Logging.get Logging.request_id_var ctx)
      then Logging.get Logging.request_id_var ctx
      else from_record in
    let from_extra :=
      match Logging.extra record with
      | Some e => match dict_get k (rev e) with
                  | Some v => Some v
                  | None => from_context
                  end
      | None => from_context
      end in
    dict_get k d
    = match Logging.exc_info record with
      | Some text => if String.eqb "exception" k then Some text else from_extra
      | None => from_extra
      end.
Proof.
  intros timestamp record ctx k d from_record from_context from_extra.
  subst d from_record from_context from_extra. unfold Logging.format.
  assert (Hctx : ∀ e : list (string * string),
    dict_get k
      (Logging.add_if_set "user_id" Logging.user_id_var ctx
         (Logging.add_if_set "session_id" Logging.session_id_var ctx
            (Logging.add_if_set "request_id" Logging.request_id_var ctx e)))
    = if String.eqb "user_id" k
         && truthy (Logging.get Logging.user_id_var ctx)
      then Logging.get Logging.user_id_var ctx
      else if String.eqb "session_id" k
              && truthy (Logging.get Logging.session_id_var ctx)
      then Logging.get Logging.session_id_var ctx
      else if String.eqb "request_id" k
              && truthy (Logging.get Logging.request_id_var ctx)
      then Logging.get Logging.request_id_var ctx
      else dict_get k e)
    by (intros e; by rewrite !dict_get_add_if_set).
  destruct (Logging.exc_info record) as [text|];
    destruct (Logging.extra record) as [e|];
    rewrite ?dict_get_set, ?dict_get_update, Hctx; reflexivity.
Qed.

(** ** The chat endpoint and the logging context *)

Section ChatEndpointFacts.
Import Logging.

Lemma truthy_nonempty (x : string) : x ≠ "" → truthy (Some x) = true.
Proof. intros Hx. simpl. by destruct (String.eqb_spec x ""). Qed.

Lemma str_UUID_nonempty (u : N) : SessionService.str_UUID u ≠ "".
Proof.
  unfold SessionService.str_UUID.
  destruct (substring 0 8 _); discriminate.
Qed.

(** A body that leaves the context alone and ends normally. *)
Lemma with_LogContext_quiet {A} (rid sid uid : option string)
    (f : Context → A) (ctx : Context) :
  with_LogContext rid sid uid (λ c, (Normal (f c), c)) ctx
  = (Normal (f (__enter__ (__init__ rid sid uid) ctx).2), ctx).
Proof.
  unfold with_LogContext.
  destruct (enter_exit_identity rid sid uid ctx) as [Hnone Hctx].
  destruct (__enter__ (__init__ rid sid uid) ctx) as [self ctx1].
  simpl in *.
  destruct (__exit__ self ctx1) as [[err self'] ctx3]. simpl in *.
  by subst.
Qed.

Lemma run_generator_events timestamp traceback response ctx :
  (Chat.run_generator timestamp traceback response ctx).1
  = Chat.event_generator (Chat.generator_session response)
      (Chat.generator_chat response).
Proof.
  unfold Chat.run_generator, Chat.event_generator.
  destruct (Chat.stream_tokens _) as [evs [e|]]; [|done].
  by destruct (is_Exception e).
Qed.

End ChatEndpointFacts.

(** X16.  [chat] logs its "request received" record inside the logging context,
    so that record carries the request id and the session id; it returns
    the response with the generator not yet started and the context
    variables back as they were.  The generator runs after that: the record
    its [except] clause logs is formatted in the context [chat] left, and
    carries the request and session id bound there, not those of the
    request; the events are those of [event_generator].  When the session
    cannot be resolved [chat] raises before it logs or sets anything. *)
Theorem chat_logs_inside_streams_outside :
  ∀ (timestamp request_id message : string) (session_id : N)
    (handle_chat : Chat.agen) (ctx : Logging.Context),
    request_id ≠ "" →
    let response := {| Chat.generator_session := session_id;
                       Chat.generator_chat := handle_chat;
                       Chat.media_type := "text/event-stream" |} in
    (∃ line,
       Chat.chat timestamp request_id (inr session_id) message handle_chat ctx
       = (Logging.Normal response, ctx, [line])
       ∧ dict_get "request_id" line = Some request_id
       ∧ dict_get "session_id" line
         = Some (SessionService.str_UUID session_id)
       ∧ dict_get "level" line = Some "INFO")
    ∧ (∀ (later traceback : string) (e : exn),
         Chat.raised handle_chat = Some e → is_Exception e = true →
         ∃ line,
           Chat.run_generator later traceback response ctx
           = (Chat.event_generator session_id handle_chat, [line])
           ∧ dict_get "level" line = Some "ERROR"
           ∧ dict_get "request_id" line
             = (if truthy (Logging.get Logging.request_id_var ctx)
                then Logging.get Logging.request_id_var ctx else None)
           ∧ dict_get "session_id" line
             = (if truthy (Logging.get Logging.session_id_var ctx)
                then Logging.get Logging.session_id_var ctx else None))
    ∧ (∀ e, Chat.chat timestamp request_id (inl e) message handle_chat ctx
            = (Logging.Raised e, ctx, [])).
Proof.
  intros timestamp request_id message session_id handle_chat ctx Hrid response.
  split; [|split; [|done]].
  - unfold Chat.chat. rewrite with_LogContext_quiet.
    eexists. split; [reflexivity|].
    destruct (enter_lookup (Some request_id)
                (Some (SessionService.str_UUID session_id)) None ctx)
      as (H1 & H2 & _).
    rewrite truthy_nonempty in H1 by done.
    rewrite truthy_nonempty in H2 by apply str_UUID_nonempty.
    set (c1 := (Logging.__enter__ _ ctx).2) in *.
    assert (Hg1 : Logging.get Logging.request_id_var c1 = Some request_id)
      by (unfold Logging.get; by rewrite H1).
    assert (Hg2 : Logging.get Logging.session_id_var c1
                  = Some (SessionService.str_UUID session_id))
      by (unfold Logging.get; by rewrite H2).
    unfold Logging.format.
    cbn [Logging.extra Logging.exc_info Chat.chat_received].
    rewrite !dict_get_add_if_set.
    rewrite Hg1, Hg2.
    rewrite !truthy_nonempty by (done || apply str_UUID_nonempty).
    destruct (truthy (Logging.get Logging.user_id_var c1)); done.
  - intros later traceback e Hraised Hexc.
    pose proof (run_generator_events later traceback response ctx) as Hev.
    unfold Chat.run_generator in *. simpl in *.
    rewrite stream_tokens_yielded in *. rewrite Hraised in *.
    rewrite Hexc in *. simpl in Hev.
    eexists. split; [by rewrite <- Hev|].
    unfold Logging.format.
    cbn [Logging.extra Logging.exc_info Chat.chat_error].
    rewrite !dict_get_set, !dict_get_add_if_set. simpl.
    destruct (truthy (Logging.get Logging.user_id_var ctx));
      destruct (truthy (Logging.get Logging.session_id_var ctx));
      destruct (truthy (Logging.get Logging.request_id_var ctx)); done.
Qed.

Lemma chat_logs_inside_streams_outside_witness :
  ∃ line,
    Chat.run_generator "12:00:01" "Traceback"
      {| Chat.generator_session := 7; Chat.generator_chat := failing_chat;
         Chat.media_type := "text/event-stream" |} ∅
    = (Chat.event_generator 7 failing_chat, [line])
    ∧ dict_get "level" line = Some "ERROR"
    ∧ dict_get "request_id" line = None
    ∧ dict_get "session_id" line = None.
Proof.
  destruct (chat_logs_inside_streams_outside "12:00:00" "req-1" "Hi" 7
              failing_chat ∅) as (_ & H & _); [discriminate|].
  apply (H "12:00:01" "Traceback" (Exception "Groq API timeout"));
    reflexivity.
Defined.

(** ** More on startup *)

Section EngineBounds.
Import Engine.
Local Open Scope nat_scope.

Lemma slept_app (t1 t2 : list io) : slept (t1 ++ t2) = (slept t1 + slept t2)%Z.
Proof.
  induction t1 as [|[|ok|d] t1 IH]; simpl; rewrite ?IH; lia.
Qed.

Lemma slept_failed_rounds k : slept (failed_rounds k) = (2 * Z.of_nat k)%Z.
Proof.
  induction k as [|k IH]; [done|].
  change (failed_rounds (S k))
    with (Connect false :: Sleep 2 :: failed_rounds k).
  simpl. rewrite IH. lia.
Qed.

(** Either the first [n + 1] candidates all fail, or there is a first one
    that does not. *)
Lemma first_success (f : nat → bool) (n : nat) :
  (∀ k, k ≤ n → f k = false)
  ∨ ∃ k, k ≤ n ∧ f k = true ∧ ∀ j, j < k → f j = false.
Proof.
  induction n as [|n [Hall|(k & Hk & Hup & Hdown)]].
  - destruct (f 0) eqn:E.
    + right. exists 0. split; [lia|]. split; [done|]. intros j Hj. lia.
    + left. intros k Hk. by replace k with 0 by lia.
  - destruct (f (S n)) eqn:E.
    + right. exists (S n). split; [lia|]. split; [done|].
      intros j Hj. apply Hall. lia.
    + left. intros k Hk. destruct (decide (k = S n)) as [->|]; [done|].
      apply Hall. lia.
  - right. exists k. split; [lia|]. split; [done|done].
Qed.

(** How [verify_connection] ends, whatever the database does. *)
Lemma verify_connection_cases (w : World) :
  (∃ k, k < 5 ∧ db_up w (attempts w + k) = true
        ∧ verify_connection w
          = (inr tt,
             {| migration := migration w; db_up := db_up w;
                attempts := attempts w + S k;
                trace := trace w ++ failed_rounds k ++ [Connect true] |}))
  ∨ ((∀ k, k < 5 → db_up w (attempts w + k) = false)
     ∧ verify_connection w
       = (inl (RetryError "RetryError[OperationalError]"),
          {| migration := migration w; db_up := db_up w;
             attempts := attempts w + 5;
             trace := trace w ++ failed_rounds 4 ++ [Connect false] |})).
Proof.
  unfold verify_connection, retry. simpl pred.
  destruct (first_success (λ k, db_up w (attempts w + k)) 4)
    as [Hall|(k & Hk & Hup & Hdown)].
  - right. split; [intros k Hk; apply Hall; lia|].
    by apply retry_connect_exhausted.
  - left. exists k. split; [lia|]. split; [done|].
    by apply retry_connect_reached.
Qed.

End EngineBounds.

(** X17.  Whatever the migration and the database do, [init_db] makes at most 5
    connection attempts and sleeps at most 8 seconds; it makes no attempt
    at all after a failed migration; an [Exception] never leaves it as
    anything but a [RuntimeError] that starts "Database unavailable: "; and
    it returns only when the migration went through and one of the five
    attempts succeeded. *)
Theorem init_db_is_bounded :
  ∀ w : Engine.World,
    let r := Engine.init_db w in
    (Engine.attempts r.2 <= Engine.attempts w + 5)%nat
    ∧ (Engine.slept (Engine.trace r.2) <= Engine.slept (Engine.trace w) + 8)%Z
    ∧ (is_Some (Engine.migration w) →
       Engine.attempts r.2 = Engine.attempts w)
    ∧ (∀ e, r.1 = inl e → is_Exception e = true →
            ∃ m, e = RuntimeError ("Database unavailable: " +:+ m))
    ∧ (∀ e, r.1 = inl e → is_Exception e = false →
            Engine.migration w = Some e)
    ∧ (r.1 = inr tt →
       Engine.migration w = None
       ∧ ∃ k, (k < 5)%nat
              ∧ Engine.db_up w (Engine.attempts w + k) = true).
Proof.
  intros w r. subst r. unfold Engine.init_db, Engine.upgrade.
  destruct (Engine.migration w) as [e0|] eqn:Hm.
  - destruct (is_Exception e0) eqn:He0; simpl.
    + split; [lia|]. split; [rewrite slept_app; simpl; lia|].
      split; [done|]. split; [|split; [|done]].
      * intros e [= <-] _. eauto.
      * intros e [= <-]. done.
    + split; [lia|]. split; [rewrite slept_app; simpl; lia|].
      split; [done|]. split; [|split; [|done]].
      * intros e [= <-]. congruence.
      * intros e [= <-] _. done.
  - destruct (verify_connection_cases (Engine.log Engine.Migrate w))
      as [(k & Hk & Hup & ->)|[Hdown ->]]; simpl.
    + split; [lia|].
      split; [rewrite ?slept_app, ?slept_failed_rounds; simpl; lia|].
      split; [by intros [? ?]|]. split; [done|]. split; [done|].
      intros _. split; [done|]. exists k. done.
    + split; [lia|].
      split; [rewrite ?slept_app, ?slept_failed_rounds; simpl; lia|].
      split; [by intros [? ?]|]. split; [|split; [|done]].
      * intros e [= <-] _. eauto.
      * intros e [= <-]. done.
Qed.

Lemma init_db_is_bounded_witness :
  Engine.attempts (Engine.init_db
                     {| Engine.migration := Some (Exception "no alembic.ini");
                        Engine.db_up := λ _, true;
                        Engine.attempts := 0; Engine.trace := [] |}).2
  = 0%nat.
Proof.
  destruct (init_db_is_bounded
              {| Engine.migration := Some (Exception "no alembic.ini");
                 Engine.db_up := λ _, true;
                 Engine.attempts := 0; Engine.trace := [] |})
    as (_ & _ & H & _).
  apply H. eexists. reflexivity.
Defined.

(** ** The plain token stream of app/utils/streaming.py *)

Lemma forward_yielded (g : Chat.agen) :
  Streaming.forward g = (Chat.yielded g, Chat.raised g).
Proof. induction g as [t g IH| |e]; simpl; [by rewrite IH|done|done]. Qed.

(** X18.  The generator of [create_sse_response] passes every token on as the
    data of one event, in order.  When the source is exhausted it adds the
    event ["[DONE]"], which is then the last one; when the source raises,
    whatever it raises leaves the generator, after the tokens so far and
    with neither a ["[DONE]"] nor an error event. *)
Theorem create_sse_response_sentinel :
  ∀ g : Chat.agen,
    (Chat.raised g = None →
     Streaming.create_sse_response g = (Chat.yielded g ++ ["[DONE]"], None)
     ∧ last (Streaming.create_sse_response g).1 = Some "[DONE]"
     ∧ length (Streaming.create_sse_response g).1
       = S (length (Chat.yielded g)))
    ∧ (∀ e, Chat.raised g = Some e →
            Streaming.create_sse_response g = (Chat.yielded g, Some e)).
Proof.
  intros g. unfold Streaming.create_sse_response. rewrite forward_yielded.
  split.
  - intros ->. split; [done|]. simpl. split; [apply last_snoc|].
    rewrite length_app. simpl. lia.
  - by intros e ->.
Qed.

Lemma create_sse_response_sentinel_witness :
  Streaming.create_sse_response failing_chat
  = (["Hel"; "lo"], Some (Exception "Groq API timeout")).
Proof.
  destruct (create_sse_response_sentinel failing_chat) as [_ H].
  apply (H (Exception "Groq API timeout")). reflexivity.
Defined.

(** ** The health check *)

(** X19.  [health_check] never lets an [Exception] out.  When it returns, the
    status is ["healthy"] exactly when the database probe raised nothing and
    the Groq client is there, and ["unhealthy"] otherwise; the [database]
    and [groq] fields say which of the two failed. *)
Theorem health_check_status :
  ∀ (db_probe : option exn) (groq_client : Health.groq_probe)
    (utc_now : Z) (app_version : string),
    let r := Health.health_check db_probe groq_client utc_now app_version in
    (∀ e, r = inl e → is_Exception e = false)
    ∧ (∀ h, r = inr h →
         (Health.status h = "healthy"
          ↔ db_probe = None ∧ groq_client = Health.GroqReady)
         ∧ (Health.status h = "healthy" ∨ Health.status h = "unhealthy")
         ∧ (Health.database h = "ok" ↔ db_probe = None)
         ∧ (Health.groq h = "ok" ↔ groq_client = Health.GroqReady)
         ∧ Health.timestamp h = utc_now
         ∧ Health.version h = app_version)
    ∧ ((∀ e, db_probe = Some e → is_Exception e = true) →
       (∀ e, groq_client = Health.GroqRaises e → is_Exception e = true) →
       ∃ h, r = inr h).
Proof.
  intros db_probe groq_client utc_now app_version r. subst r.
  unfold Health.health_check, Health.guarded.
  destruct db_probe as [e1|]; [destruct (is_Exception e1) eqn:E1|];
    (destruct groq_client as [e2| |]; [destruct (is_Exception e2) eqn:E2| |]);
    simpl.
  all: split; [intros e He; try discriminate He; by injection He as <-|].
  all: split; [intros h Hh; try discriminate Hh; injection Hh as <-; simpl;
               repeat split; try discriminate; try tauto; eauto;
               try (by intros [? ?]); try (by intros [_ ?])|].
  all: intros Hdb Hgroq; eauto.
  all: try (specialize (Hdb _ eq_refl); congruence).
  all: try (specialize (Hgroq _ eq_refl); congruence).
Qed.

Lemma health_check_status_witness :
  ∃ h, Health.health_check (Some (Exception "db down")) Health.GroqReady
         1700000000 "1.0.0" = inr h.
Proof.
  destruct (health_check_status (Some (Exception "db down")) Health.GroqReady
              1700000000 "1.0.0") as (_ & _ & H).
  apply H.
  - intros e [= <-]. reflexivity.
  - intros e He. discriminate He.
Defined.

(** ** The user routes *)

Section ApiFacts.
Import Api.





End ApiFacts.









(** ** The exception hierarchy *)

(** X24.  The error code of a [ChatBotException] subclass instance tells its
    class, whatever the arguments, and with it the HTTP status, which is
    always a 4xx or 5xx; [chatbot_exception_handler] answers with exactly
    that status and with the code, message and details of the exception. *)
Theorem error_code_tells_class :
  ∀ a b : subclass,
    (code (construct a) = code (construct b) →
     class_name a = class_name b
     ∧ status_code (construct a) = status_code (construct b))
    ∧ (400 <= status_code (construct a) < 600)%Z
    ∧ Api.chatbot_exception_handler (construct a)
      = {| Api.status_code := status_code (construct a);
           Api.body :=
             Api.ErrorJson
               {| error_code := code (construct a);
                  error_message := message (construct a);
                  error_details := Some (details (construct a)) |} |}.
Proof.
  intros a b. split; [|split; [|done]].
  - destruct a, b; simpl; intros H; try discriminate H; done.
  - destruct a; simpl; lia.
Qed.

Lemma error_code_tells_class_witness :
  class_name (RateLimit (Some "ali")) = class_name (RateLimit None)
  ∧ status_code (construct (RateLimit (Some "ali")))
    = status_code (construct (RateLimit None)).
Proof.
  apply (error_code_tells_class (RateLimit (Some "ali")) (RateLimit None)).
  reflexivity.
Defined.

(** X25.  The details of [RateLimitException] are empty when the user id is
    [None] or empty and hold just the user id otherwise.  The details of
    [ServiceUnavailableException] always have an entry ["service"]: the
    service name, unless the details passed in have an entry of that name,
    which then replaces it, while the message names the service either
    way; every other entry passed in is kept. *)
Theorem exception_details :
  ∀ (user_id : option string) (service : string)
    (d : option (list (string * string))),
    details (RateLimitException user_id)
    = (if truthy user_id then [("user_id", default "" user_id)] else [])
    ∧ dict_get "service" (details (ServiceUnavailableException service d))
      = Some (default service (d ≫= λ e, dict_get "service" (rev e)))
    ∧ (∀ k, k ≠ "service" →
            dict_get k (details (ServiceUnavailableException service d))
            = d ≫= λ e, dict_get k (rev e))
    ∧ message (ServiceUnavailableException service d)
      = "Service '" +:+ service +:+ "' is currently unavailable".
Proof.
  intros user_id service d. split; [|split; [|split; [|done]]].
  - destruct user_id as [u|]; [|done]. simpl. by destruct (String.eqb u "").
  - simpl. rewrite dict_get_update. destruct d as [e|]; simpl; [|done].
    by destruct (dict_get "service" (rev e)).
  - intros k Hk. unfold ServiceUnavailableException. cbn [details].
    rewrite dict_get_update.
    change (dict_get k [("service", service)])
      with (if String.eqb "service" k then Some service else None).
    destruct (String.eqb_spec "service" k) as [Heq|_]; [congruence|].
    destruct d as [e|]; [|reflexivity].
    unfold details_or_empty. cbn [default]. simpl mbind.
    change (Datatypes.id e) with e.
    by destruct (dict_get k (rev e)).
Qed.

Lemma exception_details_witness :
  dict_get "region"
    (details (ServiceUnavailableException "groq"
                (Some [("service", "llm"); ("region", "eu")])))
  = Some "eu".
Proof.
  destruct (exception_details None "groq"
              (Some [("service", "llm"); ("region", "eu")]))
    as (_ & _ & H & _).
  apply (H "region"). discriminate.
Defined.

(** ** The API key validator *)

Section StripFacts.
Import Config.

Lemma lstrip_empty (s : string) : lstrip s = "" ↔ all_space s = true.
Proof.
  unfold all_space. induction s as [|c s IH]; simpl; [done|].
  destruct (isspace c); simpl; [exact IH|]. split; discriminate.
Qed.




End StripFacts.


Example validate_groq_api_key_samples :
  Config.validate_groq_api_key " gsk_abc "
  = inr " gsk_abc "
  ∧ Config.validate_groq_api_key "your_api_key_here"
    = inl "GROQ_API_KEY is not configured. Please set it in .env file"
  ∧ Config.validate_groq_api_key "   "
    = inl "GROQ_API_KEY is not configured. Please set it in .env file".
Proof. repeat split. Qed.


(** ** The system prompt *)

Section PromptFacts.
Import Prompts.

Lemma append_cons (x : ascii) (a b : string) :
  String x a +:+ b = String x (a +:+ b).
Proof. reflexivity. Qed.

Lemma append_nil_l (b : string) : "" +:+ b = b.
Proof. reflexivity. Qed.

Lemma append_assoc (a b c : string) : (a +:+ b) +:+ c = a +:+ b +:+ c.
Proof.
  induction a as [|x a IH]; [reflexivity|].
  rewrite !append_cons. by rewrite IH.
Qed.

End PromptFacts.

(** X27.  The system prompt is always the same head, the five texts in their
    order, then the user context, then the same tail, the closing reminder.
    The context is empty when name and location are both [None] or empty,
    so that such a call gives the prompt of a call without arguments;
    otherwise it opens with the heading ["## CURRENT CONTEXT"].  Whatever
    is passed as name or location cannot move or remove the head or the
    reminder. *)
Theorem get_system_prompt_frame :
  ∀ (t : Prompts.Texts) (user_name location : option string),
    Prompts.get_system_prompt t user_name location
    = static_head t +:+ user_context user_name location +:+ static_tail t
    ∧ (truthy user_name || truthy location = false →
       user_context user_name location = ""
       ∧ Prompts.get_system_prompt t user_name location
         = Prompts.get_system_prompt t None None)
    ∧ (truthy user_name || truthy location = true →
       ∃ lines,
         user_context user_name location
         = Prompts.nl +:+ Prompts.nl +:+ "## CURRENT CONTEXT"
           +:+ Prompts.nl +:+ lines).
Proof.
  intros t user_name location.
  assert (Hframe : Prompts.get_system_prompt t user_name location
                   = static_head t +:+ user_context user_name location
                     +:+ static_tail t).
  { unfold Prompts.get_system_prompt, user_context, context_lines,
      static_head, static_tail.
    destruct user_name as [u|], location as [l|];
      try destruct (truthy (Some u)); try destruct (truthy (Some l));
      cbn [app Prompts.join default from_option Datatypes.id truthy];
      rewrite ?append_assoc, ?append_nil_l; reflexivity. }
  split; [exact Hframe|]. split.
  - intros Hnone. apply orb_false_iff in Hnone as [Hu Hl].
    assert (Hctx : user_context user_name location = "")
      by (unfold user_context, context_lines; by rewrite Hu, Hl).
    split; [exact Hctx|].
    rewrite Hframe, Hctx.
    unfold Prompts.get_system_prompt, static_head, static_tail.
    cbn [app Prompts.join]. by rewrite ?append_assoc, ?append_nil_l.
  - intros Hsome. unfold user_context, context_lines.
    destruct (truthy user_name), (truthy location); try discriminate Hsome;
      cbn [app]; eexists; reflexivity.
Qed.

Lemma get_system_prompt_frame_witness :
  Prompts.get_system_prompt sample_texts (Some "") None
  = Prompts.get_system_prompt sample_texts None None.
Proof.
  destruct (get_system_prompt_frame sample_texts (Some "") None)
    as (_ & H & _).
  apply H. reflexivity.
Defined.

(** ** More on the event stream *)

(** X28.  The stream holds a [done] event exactly when the chat service ran to its
    end, and an [error] event exactly when it raised an [Exception]; never
    both.  No [Exception] ever leaves the generator: what leaves it is what
    the service raised and is not an [Exception].  The [done] event carries
    the session id that [session_created] announced. *)
Theorem event_generator_terminal_events :
  ∀ (sid : N) (handle_chat : Chat.agen),
    let r := Chat.event_generator sid handle_chat in
    (Chat.count (Chat.has_event "done") r.1 = 1%nat
     ↔ Chat.raised handle_chat = None)
    ∧ (Chat.count (Chat.has_event "error") r.1 = 1%nat
       ↔ ∃ e, Chat.raised handle_chat = Some e ∧ is_Exception e = true)
    ∧ (Chat.count (Chat.has_event "done") r.1
       + Chat.count (Chat.has_event "error") r.1 <= 1)%nat
    ∧ (∀ e, r.2 = Some e →
            is_Exception e = false ∧ Chat.raised handle_chat = Some e)
    ∧ (Chat.raised handle_chat = None →
       head r.1 = Some (Chat.session_created sid)
       ∧ last r.1 = Some (Chat.done sid)
       ∧ dict_get "session_id" (Chat.data (Chat.done sid))
         = dict_get "session_id" (Chat.data (Chat.session_created sid))).
Proof.
  intros sid g r. subst r. rewrite event_generator_run.
  assert (Hcount : ∀ nm tl, nm ≠ "token" →
            Chat.count (Chat.has_event nm)
              (Chat.session_created sid :: map Chat.token (Chat.yielded g) ++ tl)
            = (Chat.count (Chat.has_event nm) [Chat.session_created sid]
               + Chat.count (Chat.has_event nm) tl)%nat).
  { intros nm tl Hnm.
    change (Chat.session_created sid :: map Chat.token (Chat.yielded g) ++ tl)
      with ([Chat.session_created sid]
            ++ map Chat.token (Chat.yielded g) ++ tl).
    rewrite !count_app, count_tokens by done. lia. }
  destruct (Chat.raised g) as [e|] eqn:Hr; [destruct (is_Exception e) eqn:He|];
    cbn [fst snd].
  - rewrite !Hcount by done. cbn.
    split; [split; [lia|discriminate]|].
    split; [split; [eauto|done]|]. split; [lia|].
    split; [discriminate|discriminate].
  - pose proof (Hcount "done" [] ltac:(done)) as H1.
    pose proof (Hcount "error" [] ltac:(done)) as H2.
    rewrite app_nil_r in H1, H2. rewrite H1, H2. cbn.
    split; [split; [lia|discriminate]|].
    split; [split; [lia|intros (e' & [= <-] & ?); congruence]|].
    split; [lia|]. split; [intros e' [= <-]; done|discriminate].
  - rewrite !Hcount by done. cbn.
    split; [done|].
    split; [split; [lia|by intros (? & ? & _)]|]. split; [lia|].
    split; [discriminate|]. intros _. split; [done|].
    split; [|done].
    change (Chat.session_created sid
            :: map Chat.token (Chat.yielded g) ++ [Chat.done sid])
      with ((Chat.session_created sid :: map Chat.token (Chat.yielded g))
            ++ [Chat.done sid]).
    apply last_snoc.
Qed.

Lemma event_generator_terminal_events_witness :
  Chat.count (Chat.has_event "error")
    (Chat.event_generator 7 failing_chat).1 = 1%nat.
Proof.
  destruct (event_generator_terminal_events 7 failing_chat)
    as (_ & H & _).
  apply H. exists (Exception "Groq API timeout"). split; reflexivity.
Defined.
